(** * torchqrnn/qrnn.py: a shallow embedding of the QRNN layers

    The Python module defines three [nn.Module] classes: [QRNNLayer] (one
    direction of one layer), [BiDirQRNNLayer] (two layers, one fed with the
    time-reversed input) and [QRNN] (a stack of either kind).

    Tensors are nested lists tagged with their rank, numbers are an abstract
    scalar type with the operations the code applies to them, a raised Python
    exception is a value of [result], and the objects' mutable attributes
    ([prevX]) together with the standard output are threaded through a small
    state-and-exception monad. *)

From Stdlib Require Import List Arith Bool Lia ZArith QArith Qabs.
Import ListNotations.

Close Scope Q_scope.

Set Implicit Arguments.

(** ** Python exceptions and results *)

Inductive exn : Type :=
| AssertionError
| AttributeError
| IndexError
| RuntimeError
| TypeError
| ValueError.

Inductive result (A : Type) : Type :=
| Ok (a : A)
| Raise (e : exn).

Arguments Ok {A} a.
Arguments Raise {A} e.

Definition rbind {A B : Type} (m : result A) (k : A -> result B) : result B :=
  match m with
  | Ok a => k a
  | Raise e => Raise e
  end.

Notation "'let*' x ':=' m 'in' k" := (rbind m (fun x => k))
  (at level 10, x pattern, m at level 100, k at level 200).

(** A comprehension [[f(i) for i in idx]] whose body may raise. *)
Fixpoint collect {A B : Type} (f : A -> result B) (idx : list A) : result (list B) :=
  match idx with
  | [] => Ok []
  | i :: rest =>
      let* x := f i in
      let* xs := collect f rest in
      Ok (x :: xs)
  end.

(** ** Scalars

    The numbers held by tensors, with the arithmetic the module applies to
    them.  [is_zero] is the test behind Python's truth value of a number
    ([if self.zoneout:]) and behind [self.dropout != 0]; [ltb], [leb] and
    [eqb] are the comparisons [<], [<=] and [==].  No law is assumed of
    them: the numbers of the program are floating-point numbers, for which
    for instance [x * 0] is not always [0]. *)

Class Scalar (R : Type) : Type := {
  zero : R;
  one : R;
  add : R -> R -> R;
  sub : R -> R -> R;
  mul : R -> R -> R;
  div : R -> R -> R;
  tanh : R -> R;
  sigmoid : R -> R;
  is_zero : R -> bool;
  ltb : R -> R -> bool;
  leb : R -> R -> bool;
  eqb : R -> R -> bool
}.

Definition truthy {R : Type} `{Scalar R} (x : R) : bool := negb (is_zero x).

(** The random draws of [bernoulli_] and of [dropout]: [bernoulli_ q idx]
    is the draw with success probability [q] for the element at index
    [idx].  The generator's state is not modelled. *)
Class Sampler (R : Type) : Type := {
  bernoulli_ : R -> list nat -> bool
}.

(** ** Mutable objects, standard output and exceptions

    A method of an object of type [S] is a computation [M S A]: it reads and
    writes the object's attributes, may print a line (here always a size),
    and returns a value or raises. *)

Definition stdout : Type := list (list nat).

Definition M (S A : Type) : Type := S -> stdout -> S * stdout * result A.

Definition ret {S A : Type} (a : A) : M S A := fun s o => (s, o, Ok a).

Definition bind {S A B : Type} (m : M S A) (k : A -> M S B) : M S B :=
  fun s o =>
    match m s o with
    | (s', o', Ok a) => k a s' o'
    | (s', o', Raise e) => (s', o', Raise e)
    end.

Notation "x <- m ;; k" := (bind m (fun x => k))
  (at level 61, m at next level, right associativity).
Notation "' p <- m ;; k" := (bind m (fun x => match x with p => k end))
  (at level 61, p pattern, m at next level, right associativity).

Definition lift {S A : Type} (r : result A) : M S A := fun s o => (s, o, r).

Definition get {S : Type} : M S S := fun s o => (s, o, Ok s).

Definition put {S : Type} (s : S) : M S unit := fun _ o => (s, o, Ok tt).

Definition print {S : Type} (line : list nat) : M S unit :=
  fun s o => (s, o ++ [line], Ok tt).

(** [try: body / except: handler] with a bare [except]. *)
Definition try_except {S A : Type} (body handler : M S A) : M S A :=
  fun s o =>
    match body s o with
    | (s', o', Raise _) => handler s' o'
    | r => r
    end.

(** The same method called on each object of a list in order, as a list
    comprehension does: an exception stops the iteration and what was
    written before it stays written. *)
Fixpoint for_each {S A : Type} (m : M S A) (l : list S) (o : stdout)
  : list S * stdout * result (list A) :=
  match l with
  | [] => ([], o, Ok [])
  | s :: rest =>
      match m s o with
      | (s', o', Ok a) =>
          match for_each m rest o' with
          | (rest', o'', Ok r) => (s' :: rest', o'', Ok (a :: r))
          | (rest', o'', Raise e) => (s' :: rest', o'', Raise e)
          end
      | (s', o', Raise e) => (s' :: rest, o', Raise e)
      end
  end.

(** A method call on an attribute: [proj] reads the attribute, [upd] writes
    it back. *)
Definition zoom {S S' A : Type} (proj : S -> S') (upd : S -> S' -> S) (m : M S' A) : M S A :=
  fun s o =>
    match m (proj s) o with
    | (s', o', r) => (upd s s', o', r)
    end.

(** ** Generic list helpers *)

Fixpoint map2 {A B C : Type} (f : A -> B -> C) (l : list A) (l' : list B) : list C :=
  match l, l' with
  | x :: t, y :: t' => f x y :: map2 f t t'
  | _, _ => []
  end.

Fixpoint map3 {A B C D : Type} (f : A -> B -> C -> D)
  (l : list A) (l' : list B) (l'' : list C) : list D :=
  match l, l', l'' with
  | x :: t, y :: t', z :: t'' => f x y z :: map3 f t t' t''
  | _, _, _ => []
  end.

(** [chunks k n l]: the first [k] consecutive pieces of length [n] of [l]. *)
Fixpoint chunks {A : Type} (k n : nat) (l : list A) : list (list A) :=
  match k with
  | 0 => []
  | S k' => firstn n l :: chunks k' n (skipn n l)
  end.

Definition tabulate {A : Type} (n : nat) (f : nat -> A) : list A := map f (seq 0 n).

Definition list_eqb (l l' : list nat) : bool :=
  if list_eq_dec Nat.eq_dec l l' then true else false.

Definition ceil_div (a b : nat) : nat := (a + b - 1) / b.

(** ** Tensors and the torch operations the module calls

    A tensor is a nested list tagged with its rank (0 to 3, the ranks that
    the module can reach).  Every operation below stands for the torch
    function named in its comment; where torch raises, the model returns
    [Raise].  Two things are not modelled: broadcasting (operands of
    different sizes are a [RuntimeError]) and the inner extents of a tensor
    whose leading extent is 0 (they read as 0). *)

Module torch.
Section Defs.

Context {R : Type} `{SR : Scalar R} `{SM : Sampler R}.

Inductive tensor : Type :=
| T0 (x : R)
| T1 (v : list R)
| T2 (m : list (list R))
| T3 (a : list (list (list R))).

(** [t.size()] *)
Definition size (t : tensor) : list nat :=
  match t with
  | T0 _ => []
  | T1 v => [length v]
  | T2 m => [length m; length (hd [] m)]
  | T3 a => [length a; length (hd [] a); length (hd [] (hd [] a))]
  end.

(** [len(t)] *)
Definition len (t : tensor) : result nat :=
  match t with
  | T0 _ => Raise TypeError
  | T1 v => Ok (length v)
  | T2 m => Ok (length m)
  | T3 a => Ok (length a)
  end.

(** The elements in row-major order. *)
Definition data (t : tensor) : list R :=
  match t with
  | T0 x => [x]
  | T1 v => v
  | T2 m => concat m
  | T3 a => concat (concat a)
  end.

(** Elementwise application of a function of one number. *)
Definition tmap (f : R -> R) (t : tensor) : tensor :=
  match t with
  | T0 x => T0 (f x)
  | T1 v => T1 (map f v)
  | T2 m => T2 (map (map f) m)
  | T3 a => T3 (map (map (map f)) a)
  end.

(** [t * c] and [t *= c] for a Python number [c] *)
Definition mul_scalar (t : tensor) (c : R) : tensor := tmap (fun x => mul x c) t.

(** [torch.nn.functional.tanh], [torch.nn.functional.sigmoid] *)
Definition F_tanh (t : tensor) : tensor := tmap tanh t.
Definition F_sigmoid (t : tensor) : tensor := tmap sigmoid t.

(** [x * y] for two tensors *)
Definition tmul (x y : tensor) : result tensor :=
  if list_eqb (size x) (size y) then
    match x, y with
    | T0 a, T0 b => Ok (T0 (mul a b))
    | T1 a, T1 b => Ok (T1 (map2 mul a b))
    | T2 a, T2 b => Ok (T2 (map2 (map2 mul) a b))
    | T3 a, T3 b => Ok (T3 (map2 (map2 (map2 mul)) a b))
    | _, _ => Raise RuntimeError
    end
  else Raise RuntimeError.

(** [X[:1, :, :]], [X[:-1, :, :]] and [X[-1:, :, :]]: three indices need
    rank 3. *)
Definition slice_first (X : tensor) : result tensor :=
  match X with
  | T3 a => Ok (T3 (firstn 1 a))
  | _ => Raise IndexError
  end.

Definition slice_but_last (X : tensor) : result tensor :=
  match X with
  | T3 a => Ok (T3 (firstn (length a - 1) a))
  | _ => Raise IndexError
  end.

Definition slice_last (X : tensor) : result tensor :=
  match X with
  | T3 a => Ok (T3 (skipn (length a - 1) a))
  | _ => Raise IndexError
  end.

(** [t[i]] for a non-negative [i] *)
Definition getitem (t : tensor) (i : nat) : result tensor :=
  match t with
  | T0 _ => Raise IndexError
  | T1 v => match nth_error v i with Some x => Ok (T0 x) | None => Raise IndexError end
  | T2 m => match nth_error m i with Some x => Ok (T1 x) | None => Raise IndexError end
  | T3 a => match nth_error a i with Some x => Ok (T2 x) | None => Raise IndexError end
  end.

(** [torch.cat(ts, 0)].  Only rank-3 operands reach it in this module.  An
    empty list is refused with a [ValueError] (releases of torch up to 2.0
    raise [RuntimeError] there). *)
Fixpoint cat0_onto (acc : list (list (list R))) (ts : list tensor) : result tensor :=
  match ts with
  | [] => Ok (T3 acc)
  | T3 b :: ts' =>
      if list_eqb (tl (size (T3 acc))) (tl (size (T3 b)))
      then cat0_onto (acc ++ b) ts'
      else Raise RuntimeError
  | _ :: _ => Raise RuntimeError
  end.

Definition cat0 (ts : list tensor) : result tensor :=
  match ts with
  | [] => Raise ValueError
  | T3 a :: ts' => cat0_onto a ts'
  | _ :: _ => Raise RuntimeError
  end.

(** [torch.cat([x, y], 2)], which for rank 3 is also
    [torch.cat([x, y], dim=-1)]. *)
Definition cat_last (x y : tensor) : result tensor :=
  match x, y with
  | T3 a, T3 b =>
      if list_eqb (firstn 2 (size x)) (firstn 2 (size y))
      then Ok (T3 (map2 (map2 (@app R)) a b))
      else Raise RuntimeError
  | T3 _, _ => Raise RuntimeError
  | _, _ => Raise IndexError
  end.

(** [torch.flip(t, [0])] *)
Definition flip0 (t : tensor) : result tensor :=
  match t with
  | T0 _ => Raise RuntimeError
  | T1 v => Ok (T1 (rev v))
  | T2 m => Ok (T2 (rev m))
  | T3 a => Ok (T3 (rev a))
  end.

(** [t.view(s0, s1, s2)] of a contiguous tensor *)
Definition view3 (t : tensor) (s0 s1 s2 : nat) : result tensor :=
  if length (data t) =? s0 * s1 * s2
  then Ok (T3 (map (chunks s1 s2) (chunks s0 (s1 * s2) (data t))))
  else Raise RuntimeError.

(** [t.chunk(n, dim=2)]: pieces of [ceil(d / n)] features each, [n] empty
    pieces when there are no features. *)
Definition chunk2 (n : nat) (t : tensor) : result (list tensor) :=
  match t with
  | T3 a =>
      let d := nth 2 (size t) 0 in
      let cs := ceil_div d n in
      let k := if d =? 0 then n else ceil_div d cs in
      Ok (tabulate k (fun i => T3 (map (map (fun v => firstn cs (skipn (i * cs) v))) a)))
  | _ => Raise IndexError
  end.

(** [t.data.new( *t.size()).bernoulli_(q)]: a fresh tensor of the size of
    [t], each element 1 with probability [q], else 0. *)
Definition draw (q : R) (idx : list nat) : R := if bernoulli_ q idx then one else zero.

Definition new_bernoulli (t : tensor) (q : R) : tensor :=
  match t with
  | T0 _ => T0 (draw q [])
  | T1 _ => T1 (tabulate (nth 0 (size t) 0) (fun i => draw q [i]))
  | T2 _ => T2 (tabulate (nth 0 (size t) 0) (fun i =>
              tabulate (nth 1 (size t) 0) (fun j => draw q [i; j])))
  | T3 _ => T3 (tabulate (nth 0 (size t) 0) (fun i =>
              tabulate (nth 1 (size t) 0) (fun j =>
                tabulate (nth 2 (size t) 0) (fun k => draw q [i; j; k]))))
  end.

(** [torch.nn.functional.dropout(t, p=p, training=training, inplace=False)].
    In both modes a [p] with [p < 0.0 or p > 1.0] is a [ValueError], and one
    that then fails the library's own test [p >= 0 && p <= 1] (a NaN) is a
    [RuntimeError].  With [p == 0], outside training, or for a tensor
    without elements the argument is returned as it is; with [p == 1] it is
    multiplied by 0; otherwise a mask is drawn with success probability
    [1 - p], divided by [1 - p] and multiplied into the argument, as the
    CPU implementation does. *)
Definition F_dropout (t : tensor) (p : R) (training : bool) : result tensor :=
  if ltb p zero || ltb one p then Raise ValueError
  else if negb (leb zero p && leb p one) then Raise RuntimeError
  else if is_zero p || negb training || (length (data t) =? 0) then Ok t
  else if eqb p one then Ok (mul_scalar t zero)
  else tmul t (tmap (fun m => div m (sub one p)) (new_bernoulli t (sub one p))).

(** [nn.Linear]: [y = x W^T + b] on the last axis. *)
Record Linear : Type := {
  in_features : nat;
  out_features : nat;
  weight : list (list R);
  bias : list R
}.

(** The initial parameter values, drawn at random by the library, are an
    argument: [w j i] for the weight and [b j] for the bias. *)
Definition params : Type := ((nat -> nat -> R) * (nat -> R))%type.

Definition nn_Linear (n_in n_out : nat) (theta : params) : Linear :=
  {| in_features := n_in;
     out_features := n_out;
     weight := tabulate n_out (fun j => tabulate n_in (fun i => fst theta j i));
     bias := tabulate n_out (snd theta) |}.

Definition dot (x w : list R) : R := fold_left add (map2 mul x w) zero.

Definition linear_row (l : Linear) (x : list R) : list R :=
  map2 (fun w b => add (dot x w) b) (weight l) (bias l).

Definition linear_forward (l : Linear) (t : tensor) : result tensor :=
  if last (size t) 0 =? in_features l then
    match t with
    | T0 _ => Raise RuntimeError
    | T1 v => Ok (T1 (linear_row l v))
    | T2 m => Ok (T2 (map (linear_row l) m))
    | T3 a => Ok (T3 (map (map (linear_row l)) a))
    end
  else Raise RuntimeError.

End Defs.

Arguments tensor R : clear implicits.
Arguments Linear R : clear implicits.
Arguments params R : clear implicits.

End torch.

Import torch.

(** ** forget_mult.ForgetMult *)

Module forget_mult.
Section Defs.

Context {R : Type} `{SR : Scalar R}.

(** Modelled from the spec: forget_mult.py is not among the sources; one
    step of the scan is [C[t] = F[t] * Z[t] + (1 - F[t]) * C[t-1]],
    elementwise. *)
Definition update (f z c : R) : R := add (mul f z) (mul (sub one f) c).

(** Modelled from the spec: forget_mult.py is not among the sources; the
    scan runs left to right over the time axis, each step from the state
    the previous one produced. *)
Fixpoint recurrence (F Z : list (list (list R))) (c : list (list R))
  : list (list (list R)) :=
  match F, Z with
  | f :: F', z :: Z' =>
      let c' := map3 (map3 update) f z c in
      c' :: recurrence F' Z' c'
  | _, _ => []
  end.

(** Modelled from the spec: forget_mult.py (the class ForgetMult that
    qrnn.py imports) is not among the sources.  Given F and Z of one size
    (T, batch, hidden_dim) and an optional initial state of size
    (batch, hidden_dim), an all-zero array when none is supplied, it returns
    the full array C of the recurrence.  Both execution strategies selected
    by [use_cuda] compute this same recurrence. *)
Definition ForgetMult (F Z : tensor R) (hidden : option (tensor R)) (use_cuda : bool)
  : result (tensor R) :=
  match F, Z with
  | T3 f, T3 z =>
      if list_eqb (size F) (size Z) then
        match hidden with
        | None =>
            let c := tabulate (nth 1 (size F) 0) (fun _ =>
                       tabulate (nth 2 (size F) 0) (fun _ => zero)) in
            Ok (T3 (recurrence f z c))
        | Some (T2 c) =>
            if list_eqb (size (T2 c)) (tl (size F))
            then Ok (T3 (recurrence f z c))
            else Raise RuntimeError
        | Some _ => Raise RuntimeError
        end
      else Raise RuntimeError
  | _, _ => Raise RuntimeError
  end.

End Defs.
End forget_mult.

Import forget_mult.

(** ** Python values a caller can hand to [forward] *)

#[warnings="-register-all"] Inductive pyobj (R : Type) : Type :=
| PNone
| PTensor (t : tensor R)
| PTuple (items : list (pyobj R)).

Arguments PNone {R}.
Arguments PTensor {R} t.
Arguments PTuple {R} items.

Section Python.

Context {R : Type}.

(** The receiver of [X.size()]: only a tensor has the attribute. *)
Definition as_tensor (o : pyobj R) : result (tensor R) :=
  match o with
  | PTensor t => Ok t
  | _ => Raise AttributeError
  end.

(** The items that unpacking [a, b, ... = o] iterates over. *)
Definition py_iter (o : pyobj R) : result (list (pyobj R)) :=
  match o with
  | PNone => Raise TypeError
  | PTuple items => Ok items
  | PTensor (T0 _) => Raise TypeError
  | PTensor (T1 v) => Ok (map (fun x => PTensor (T0 x)) v)
  | PTensor (T2 m) => Ok (map (fun x => PTensor (T1 x)) m)
  | PTensor (T3 a) => Ok (map (fun x => PTensor (T2 x)) a)
  end.

Definition unpack2 {A : Type} (l : list A) : result (A * A) :=
  match l with
  | [a; b] => Ok (a, b)
  | _ => Raise ValueError
  end.

Definition unpack3 {A : Type} (l : list A) : result (A * A * A) :=
  match l with
  | [a; b; c] => Ok (a, b, c)
  | _ => Raise ValueError
  end.

Definition unpack4 {A : Type} (l : list A) : result (A * A * A * A) :=
  match l with
  | [a; b; c; d] => Ok (a, b, c, d)
  | _ => Raise ValueError
  end.

(** [o[0]] *)
Definition py_getitem0 (o : pyobj R) : result (pyobj R) :=
  match o with
  | PNone => Raise TypeError
  | PTuple items =>
      match items with
      | x :: _ => Ok x
      | [] => Raise IndexError
      end
  | PTensor t => let* x := getitem t 0 in Ok (PTensor x)
  end.

(** [int(o)]: only a tensor of one element converts.  The module never
    uses the number, so only success or failure is kept. *)
Definition py_int (o : pyobj R) : result unit :=
  match o with
  | PTensor t => if length (data t) =? 1 then Ok tt else Raise ValueError
  | _ => Raise TypeError
  end.

(** [torch.flip(o, [0])] *)
Definition py_flip0 (o : pyobj R) : result (pyobj R) :=
  match o with
  | PTensor t => let* r := flip0 t in Ok (PTensor r)
  | _ => Raise TypeError
  end.

End Python.

(** ** class QRNNLayer *)

Module QRNNLayer.
Section Defs.

Context {R : Type} `{SR : Scalar R} `{SM : Sampler R}.

Record t : Type := {
  window : nat;
  input_size : nat;
  hidden_size : nat;
  zoneout : R;
  save_prev_x : bool;
  prevX : option (tensor R);
  output_gate : bool;
  use_cuda : bool;
  linear : Linear R;
  training : bool
}.

Definition set_prevX (self : t) (p : option (tensor R)) : t :=
  {| window := window self;
     input_size := input_size self;
     hidden_size := hidden_size self;
     zoneout := zoneout self;
     save_prev_x := save_prev_x self;
     prevX := p;
     output_gate := output_gate self;
     use_cuda := use_cuda self;
     linear := linear self;
     training := training self |}.

(** [hidden_size if hidden_size else input_size]: [None] and [0] are both
    false. *)
Definition hidden_or_input (hidden_size : option nat) (input_size : nat) : nat :=
  match hidden_size with
  | Some (S h) => S h
  | Some 0 => input_size
  | None => input_size
  end.

(** [__init__(self, input_size, hidden_size=None, save_prev_x=False,
    zoneout=0, window=1, output_gate=True, use_cuda=True)].  [theta] holds
    the initial parameters of [self.linear]; a new module is in training
    mode. *)
Definition __init__ (theta : params R) (input_size : nat) (hidden_size : option nat)
  (save_prev_x : bool) (zoneout : R) (window : nat) (output_gate use_cuda : bool)
  : result t :=
  if existsb (Nat.eqb window) [1; 2] then
    let hidden := hidden_or_input hidden_size input_size in
    Ok {| window := window;
          input_size := input_size;
          hidden_size := hidden;
          zoneout := zoneout;
          save_prev_x := save_prev_x;
          prevX := None;
          output_gate := output_gate;
          use_cuda := use_cuda;
          linear := nn_Linear (window * input_size)
                               (if output_gate then 3 * hidden else 2 * hidden) theta;
          training := true |}
  else Raise AssertionError.

(** [reset(self)] *)
Definition reset : M t unit :=
  self <- get ;;
  put (set_prevX self None).

(** Lines 55-63: the sizes are read from [X.size()]; when that fails for
    any reason the input is unpacked as a packed sequence
    [(data, batch_sizes, sorted_indices, unsorted_indices)] and the sizes
    are read from the two extents of the data. *)
Definition read_input (X : pyobj R) : M t (tensor R * nat * nat) :=
  try_except
    (x <- lift (as_tensor X) ;;
     '(seq_len, batch_size, _) <- lift (unpack3 (size x)) ;;
     ret (x, seq_len, batch_size))
    (let input := X in
     items <- lift (py_iter input) ;;
     '(X, batch_sizes, sorted_indices, unsorted_indices) <- lift (unpack4 items) ;;
     max_batch_size <- lift (py_getitem0 batch_sizes) ;;
     _ <- lift (py_int max_batch_size) ;;
     x <- lift (as_tensor X) ;;
     _ <- print (size x) ;;
     '(seq_len, batch_size) <- lift (unpack2 (size x)) ;;
     ret (x, seq_len, batch_size)).

(** Lines 74-78: the list [Xm1] before it is concatenated. *)
Definition shifted_parts (self : t) (X : tensor R) : result (list (tensor R)) :=
  let* boundary :=
    match prevX self with
    | Some p => Ok p
    | None => let* x0 := slice_first X in Ok (mul_scalar x0 zero)
    end in
  let Xm1 := [boundary] in
  let* n := len X in
  if 1 <? n
  then let* body := slice_but_last X in Ok (Xm1 ++ [body])
  else Ok Xm1.

(** Lines 69-81.  With any other window [source] stays [None] and
    [self.linear(None)] raises. *)
Definition build_source (self : t) (X : tensor R) : result (tensor R) :=
  if window self =? 1 then Ok X
  else if window self =? 2 then
    let* parts := shifted_parts self X in
    let* Xm1 := cat0 parts in
    cat_last X Xm1
  else Raise TypeError.

(** Lines 84-94: [Z], [F] and, with an output gate, [O] (written [Og],
    [O] being a numeral here). *)
Definition gates (self : t) (source : tensor R) (seq_len batch_size : nat)
  : result (tensor R * tensor R * option (tensor R)) :=
  let* Y := linear_forward (linear self) source in
  let* ZFO :=
    if output_gate self then
      let* Y := view3 Y seq_len batch_size (3 * hidden_size self) in
      let* cs := chunk2 3 Y in
      let* (Z, F, Og) := unpack3 cs in
      Ok (Z, F, Some Og)
    else
      let* Y := view3 Y seq_len batch_size (2 * hidden_size self) in
      let* cs := chunk2 2 Y in
      let* (Z, F) := unpack2 cs in
      Ok (Z, F, None) in
  let '(Z, F, Og) := ZFO in
  let Z := F_tanh Z in
  let F := F_sigmoid F in
  Ok (Z, F, Og).

(** Lines 96-103 *)
Definition apply_zoneout (self : t) (F : tensor R) : result (tensor R) :=
  if truthy (zoneout self) then
    if training self then
      let mask := new_bernoulli F (sub one (zoneout self)) in
      tmul F mask
    else Ok (mul_scalar F (sub one (zoneout self)))
  else Ok F.

(** Lines 115-119.  [O] is bound exactly when [self.output_gate] holds. *)
Definition apply_output_gate (self : t) (Og : option (tensor R)) (C : tensor R)
  : result (tensor R) :=
  if output_gate self then
    match Og with
    | Some Og => tmul (F_sigmoid Og) C
    | None => Raise RuntimeError
    end
  else Ok C.

(** [forward(self, X, hidden=None)] *)
Definition forward (X : pyobj R) (hidden : option (tensor R)) : M t (tensor R * tensor R) :=
  '(X, seq_len, batch_size) <- read_input X ;;
  self <- get ;;
  source <- lift (build_source self X) ;;
  '(Z, F, Og) <- lift (gates self source seq_len batch_size) ;;
  F <- lift (apply_zoneout self F) ;;
  C <- lift (ForgetMult F Z hidden (use_cuda self)) ;;
  H <- lift (apply_output_gate self Og C) ;;
  _ <- (if (1 <? window self) && save_prev_x self
        then last_x <- lift (slice_last X) ;; put (set_prevX self (Some last_x))
        else ret tt) ;;
  h_n <- lift (slice_last C) ;;
  ret (H, h_n).

End Defs.

Arguments t R : clear implicits.

End QRNNLayer.

(** ** class BiDirQRNNLayer *)

Module BiDirQRNNLayer.
Section Defs.

Context {R : Type} `{SR : Scalar R} `{SM : Sampler R}.

Record t : Type := {
  window : nat;
  input_size : nat;
  hidden_size : nat;
  zoneout : R;
  save_prev_x : bool;
  prevX : option (tensor R);
  output_gate : bool;
  use_cuda : bool;
  forward_qrnn : QRNNLayer.t R;
  backward_qrnn : QRNNLayer.t R;
  training : bool
}.

Definition set_forward_qrnn (self : t) (l : QRNNLayer.t R) : t :=
  {| window := window self;
     input_size := input_size self;
     hidden_size := hidden_size self;
     zoneout := zoneout self;
     save_prev_x := save_prev_x self;
     prevX := prevX self;
     output_gate := output_gate self;
     use_cuda := use_cuda self;
     forward_qrnn := l;
     backward_qrnn := backward_qrnn self;
     training := training self |}.

Definition set_backward_qrnn (self : t) (l : QRNNLayer.t R) : t :=
  {| window := window self;
     input_size := input_size self;
     hidden_size := hidden_size self;
     zoneout := zoneout self;
     save_prev_x := save_prev_x self;
     prevX := prevX self;
     output_gate := output_gate self;
     use_cuda := use_cuda self;
     forward_qrnn := forward_qrnn self;
     backward_qrnn := l;
     training := training self |}.

(** [__init__(self, input_size, hidden_size=None, save_prev_x=False,
    zoneout=0, window=1, output_gate=True, use_cuda=True)]; the two
    sub-layers receive the arguments as they were passed. *)
Definition __init__ (theta_f theta_b : params R) (input_size : nat)
  (hidden_size : option nat) (save_prev_x : bool) (zoneout : R) (window : nat)
  (output_gate use_cuda : bool) : result t :=
  if existsb (Nat.eqb window) [1; 2] then
    let* f := QRNNLayer.__init__ theta_f input_size hidden_size save_prev_x zoneout
                window output_gate use_cuda in
    let* b := QRNNLayer.__init__ theta_b input_size hidden_size save_prev_x zoneout
                window output_gate use_cuda in
    Ok {| window := window;
          input_size := input_size;
          hidden_size := QRNNLayer.hidden_or_input hidden_size input_size;
          zoneout := zoneout;
          save_prev_x := save_prev_x;
          prevX := None;
          output_gate := output_gate;
          use_cuda := use_cuda;
          forward_qrnn := f;
          backward_qrnn := b;
          training := true |}
  else Raise AssertionError.

(** [forward(self, X, hidden=None)].  The class defines no [reset]. *)
Definition forward (X : pyobj R) (hidden : option (tensor R)) : M t (tensor R * tensor R) :=
  '(fwd, h_fwd, bwd, h_bwd) <-
    match hidden with
    | Some h =>
        '(fwd, h_fwd) <- zoom forward_qrnn set_forward_qrnn
                           (QRNNLayer.forward X (Some h)) ;;
        Xr <- lift (py_flip0 X) ;;
        '(bwd, h_bwd) <- zoom backward_qrnn set_backward_qrnn
                           (QRNNLayer.forward Xr (Some h)) ;;
        ret (fwd, h_fwd, bwd, h_bwd)
    | None =>
        '(fwd, h_fwd) <- zoom forward_qrnn set_forward_qrnn
                           (QRNNLayer.forward X None) ;;
        Xr <- lift (py_flip0 X) ;;
        '(bwd, h_bwd) <- zoom backward_qrnn set_backward_qrnn
                           (QRNNLayer.forward Xr None) ;;
        ret (fwd, h_fwd, bwd, h_bwd)
    end ;;
  bwd <- lift (flip0 bwd) ;;
  out <- lift (cat_last fwd bwd) ;;
  h_n <- lift (cat_last h_fwd h_bwd) ;;
  ret (out, h_n).

End Defs.

Arguments t R : clear implicits.

End BiDirQRNNLayer.

(** ** class QRNN *)

Module QRNN.
Section Defs.

Context {R : Type} `{SR : Scalar R} `{SM : Sampler R}.

(** A member of [self.layers]: an object of one of the two classes above. *)
Inductive layer : Type :=
| Uni (l : QRNNLayer.t R)
| Bi (l : BiDirQRNNLayer.t R).

(** The keyword arguments handed on to the layers' constructors, with the
    constructors' defaults filled in by the caller. *)
Record kwargs : Type := {
  save_prev_x : bool;
  zoneout : R;
  window : nat;
  output_gate : bool;
  use_cuda : bool
}.

Record t : Type := {
  layers : list layer;
  input_size : nat;
  hidden_size : nat;
  num_layers : nat;
  bias : bool;
  batch_first : bool;
  dropout : R;
  bidirectional : bool;
  training : bool
}.

Definition set_layers (self : t) (ls : list layer) : t :=
  {| layers := ls;
     input_size := input_size self;
     hidden_size := hidden_size self;
     num_layers := num_layers self;
     bias := bias self;
     batch_first := batch_first self;
     dropout := dropout self;
     bidirectional := bidirectional self;
     training := training self |}.

(** [layers if layers else ...]: [None] and the empty list are both false. *)
Definition given (layers : option (list layer)) : option (list layer) :=
  match layers with
  | Some (l :: ls) => Some (l :: ls)
  | _ => None
  end.

(** [__init__(self, input_size, hidden_size, num_layers=1, bias=True,
    batch_first=False, dropout=0, bidirectional=False, layers=None,
    **kwargs)].  [thetas l] holds the initial parameters of layer [l] (the
    second component is used by the backward direction only). *)
Definition __init__ (thetas : nat -> params R * params R) (input_size hidden_size : nat)
  (num_layers : nat) (bias batch_first : bool) (dropout : R) (bidirectional : bool)
  (layers : option (list layer)) (kw : kwargs) : result t :=
  if negb (Bool.eqb batch_first false) then Raise AssertionError
  else if negb (Bool.eqb bias true) then Raise AssertionError
  else
    let* ls :=
      if bidirectional then
        match given layers with
        | Some ls => Ok ls
        | None =>
            collect (fun l =>
              let* b := BiDirQRNNLayer.__init__ (fst (thetas l)) (snd (thetas l))
                          (if l =? 0 then input_size else hidden_size * 2)
                          (Some hidden_size) (save_prev_x kw) (zoneout kw) (window kw)
                          (output_gate kw) (use_cuda kw) in
              Ok (Bi b)) (seq 0 num_layers)
        end
      else
        match given layers with
        | Some ls => Ok ls
        | None =>
            collect (fun l =>
              let* q := QRNNLayer.__init__ (fst (thetas l))
                          (if l =? 0 then input_size else hidden_size)
                          (Some hidden_size) (save_prev_x kw) (zoneout kw) (window kw)
                          (output_gate kw) (use_cuda kw) in
              Ok (Uni q)) (seq 0 num_layers)
        end in
    Ok {| layers := ls;
          input_size := input_size;
          hidden_size := hidden_size;
          num_layers := match given layers with
                        | Some ls => length ls
                        | None => num_layers
                        end;
          bias := bias;
          batch_first := batch_first;
          dropout := dropout;
          bidirectional := bidirectional;
          training := true |}.

(** [layer.reset()]: [QRNNLayer] defines the method, [BiDirQRNNLayer] does
    not, and the attribute lookup on it raises. *)
Definition layer_reset : M layer unit :=
  fun l o =>
    match l with
    | Uni q =>
        match QRNNLayer.reset q o with
        | (q', o', r) => (Uni q', o', r)
        end
    | Bi b => (Bi b, o, Raise AttributeError)
    end.

(** [layer(input, hidden)] *)
Definition layer_forward (X : pyobj R) (hidden : option (tensor R))
  : M layer (tensor R * tensor R) :=
  fun l o =>
    match l with
    | Uni q =>
        match QRNNLayer.forward X hidden q o with
        | (q', o', r) => (Uni q', o', r)
        end
    | Bi b =>
        match BiDirQRNNLayer.forward X hidden b o with
        | (b', o', r) => (Bi b', o', r)
        end
    end.

(** [reset(self)]: [[layer.reset() for layer in self.layers]] *)
Definition reset : M t unit :=
  _ <- zoom layers set_layers (for_each layer_reset) ;;
  ret tt.

(** [None if hidden is None else hidden[i]] *)
Definition hidden_for (hidden : option (tensor R)) (i : nat) : result (option (tensor R)) :=
  match hidden with
  | None => Ok None
  | Some h => let* hi := getitem h i in Ok (Some hi)
  end.

(** One turn of the loop of [forward], lines 216-220, on the layer at
    index [i]. *)
Definition forward_step (self : t) (i : nat) (input : pyobj R)
  (hidden : option (tensor R)) (next_hidden : list (tensor R))
  : M layer (pyobj R * list (tensor R)) :=
  h <- lift (hidden_for hidden i) ;;
  '(out, hn) <- layer_forward input h ;;
  let next_hidden := next_hidden ++ [hn] in
  if negb (is_zero (dropout self)) && (i <? length (layers self) - 1)
  then out <- lift (F_dropout out (dropout self) (training self)) ;;
       ret (PTensor out, next_hidden)
  else ret (PTensor out, next_hidden).

(** The loop of [forward] over the layers from index [i] on. *)
Fixpoint forward_loop (self : t) (i : nat) (input : pyobj R)
  (hidden : option (tensor R)) (next_hidden : list (tensor R))
  (ls : list layer) (o : stdout) {struct ls}
  : list layer * stdout * result (pyobj R * list (tensor R)) :=
  match ls with
  | [] => ([], o, Ok (input, next_hidden))
  | l :: rest =>
      match forward_step self i input hidden next_hidden l o with
      | (l', o', Ok (input', next_hidden')) =>
          match forward_loop self (S i) input' hidden next_hidden' rest o' with
          | (rest', o'', r) => (l' :: rest', o'', r)
          end
      | (l', o', Raise e) => (l' :: rest, o', Raise e)
      end
  end.

(** Line 222 *)
Definition stack_hidden (self : t) (next_hidden : list (tensor R)) : result (tensor R) :=
  let* c := cat0 next_hidden in
  let* first :=
    match next_hidden with
    | x :: _ => Ok x
    | [] => Raise IndexError
    end in
  match rev (firstn 2 (rev (size first))) with
  | [s1; s2] => view3 c (num_layers self) s1 s2
  | _ => Raise RuntimeError
  end.

(** [forward(self, input, hidden=None)] *)
Definition forward (input : pyobj R) (hidden : option (tensor R))
  : M t (pyobj R * tensor R) :=
  self <- get ;;
  '(input, next_hidden) <-
    zoom layers set_layers (forward_loop self 0 input hidden []) ;;
  next_hidden <- lift (stack_hidden self next_hidden) ;;
  ret (input, next_hidden).

End Defs.

Arguments t R : clear implicits.
Arguments layer R : clear implicits.
Arguments kwargs R : clear implicits.

End QRNN.

(** ** Vocabulary of the statements *)

Section Shapes.

Context {R : Type} `{SR : Scalar R} `{SM : Sampler R}.

(** A (batch, features) matrix and a (time, batch, features) array with the
    given extents. *)
Definition shape2 (B D : nat) (m : list (list R)) : Prop :=
  length m = B /\ Forall (fun v => length v = D) m.

Definition shape3 (T B D : nat) (a : list (list (list R))) : Prop :=
  length a = T /\ Forall (shape2 B D) a.

(** The element at one index. *)
Definition at2 (m : list (list R)) (b d : nat) : R := nth d (nth b m []) zero.

Definition at3 (a : list (list (list R))) (t b d : nat) : R := at2 (nth t a []) b d.




(** The cache of a layer is empty or holds one time step of the given
    extents. *)
Definition prevX_ok (B D : nat) (p : option (tensor R)) : Prop :=
  match p with
  | None => True
  | Some (T3 [x]) => shape2 B D x
  | Some _ => False
  end.

(** The time step before the first one, as line 75 builds it: the cached
    step, or the first step of the input multiplied by 0. *)
Definition boundary (p : option (tensor R)) (a : list (list (list R))) : list (list R) :=
  match p with
  | Some (T3 [x]) => x
  | _ => map (map (fun x => mul x zero)) (hd [] a)
  end.


(** The parameters of [self.linear] have the extents [__init__] gave them. *)
Definition linear_ok (l : Linear R) : Prop :=
  length (weight l) = out_features l /\ length (bias l) = out_features l.

Definition layer_ok (self : QRNNLayer.t R) : Prop :=
  (QRNNLayer.window self = 1 \/ QRNNLayer.window self = 2) /\
  linear_ok (QRNNLayer.linear self) /\
  in_features (QRNNLayer.linear self) =
    QRNNLayer.window self * QRNNLayer.input_size self /\
  out_features (QRNNLayer.linear self) =
    (if QRNNLayer.output_gate self then 3 else 2) * QRNNLayer.hidden_size self.



(** The array [Xm1] of line 79 for a rank-3 input: the boundary step, then
    all steps of the input but the last. *)
Definition shifted (p : option (tensor R)) (a : list (list (list R)))
  : list (list (list R)) :=
  match p with
  | Some (T3 [x]) => x
  | _ => map (map (fun x => mul x zero)) (hd [] a)
  end :: firstn (length a - 1) a.


(** The layer after a successful [forward] on a rank-3 input, lines
    122-123. *)
Definition cache_after (self : QRNNLayer.t R) (a : list (list (list R))) : QRNNLayer.t R :=
  if (1 <? QRNNLayer.window self) && QRNNLayer.save_prev_x self
  then QRNNLayer.set_prevX self (Some (T3 [last a []]))
  else self.


(** The bidirectional layer after a successful [forward] on a rank-3
    input. *)
Definition bidir_after (self : BiDirQRNNLayer.t R) (a : list (list (list R)))
  : BiDirQRNNLayer.t R :=
  BiDirQRNNLayer.set_backward_qrnn
    (BiDirQRNNLayer.set_forward_qrnn self
       (cache_after (BiDirQRNNLayer.forward_qrnn self) a))
    (cache_after (BiDirQRNNLayer.backward_qrnn self) (rev a)).












(** The caches held by the layers of a stack, in order; a bidirectional
    unit holds one for each direction. *)
Definition unit_caches (l : QRNN.layer R) : list (option (tensor R)) :=
  match l with
  | QRNN.Uni q => [QRNNLayer.prevX q]
  | QRNN.Bi b =>
      [QRNNLayer.prevX (BiDirQRNNLayer.forward_qrnn b);
       QRNNLayer.prevX (BiDirQRNNLayer.backward_qrnn b)]
  end.

Definition caches (self : QRNN.t R) : list (option (tensor R)) :=
  flat_map unit_caches (QRNN.layers self).

Definition is_uni (l : QRNN.layer R) : bool :=
  match l with
  | QRNN.Uni _ => true
  | QRNN.Bi _ => false
  end.

(** [reset] applied to a unidirectional unit. *)
Definition unit_cleared (l : QRNN.layer R) : QRNN.layer R :=
  match l with
  | QRNN.Uni q => QRNN.Uni (QRNNLayer.set_prevX q None)
  | QRNN.Bi b => QRNN.Bi b
  end.

End Shapes.

(** ** A concrete instance

    Integers, with the sign function for [tanh] and the unit step for
    [sigmoid], and a fixed pattern of draws.  It serves to run the model on
    concrete inputs. *)

Module Demo.

#[global] Instance Z_Scalar : Scalar Z := {|
  zero := 0%Z;
  one := 1%Z;
  add := Z.add;
  sub := Z.sub;
  mul := Z.mul;
  div := Z.div;
  tanh := Z.sgn;
  sigmoid := fun x => if (0 <? x)%Z then 1%Z else 0%Z;
  is_zero := Z.eqb 0%Z;
  ltb := Z.ltb;
  leb := Z.leb;
  eqb := Z.eqb
|}.

#[global] Instance Z_Sampler : Sampler Z := {|
  bernoulli_ := fun _ idx => Nat.even (list_sum idx)
|}.

Definition theta : params Z :=
  (fun j i => (Z.of_nat (j + i) - 2)%Z, fun j => (Z.of_nat j - 1)%Z).

(** Three time steps, a batch of two, two features. *)
Definition X0 : list (list (list Z)) :=
  [[[1; 2]; [3; 4]]; [[5; 6]; [7; 8]]; [[-1; 0]; [2; -3]]]%Z.

(** A second sequence of one time step. *)
Definition X1 : list (list (list Z)) := [[[4; -1]; [0; 2]]]%Z.


(** [QRNNLayer(2, 3, save_prev_x=True, window=2, use_cuda=False)] *)
Definition layer : QRNNLayer.t Z :=
  {| QRNNLayer.window := 2;
     QRNNLayer.input_size := 2;
     QRNNLayer.hidden_size := 3;
     QRNNLayer.zoneout := 0%Z;
     QRNNLayer.save_prev_x := true;
     QRNNLayer.prevX := None;
     QRNNLayer.output_gate := true;
     QRNNLayer.use_cuda := false;
     QRNNLayer.linear := nn_Linear 4 9 theta;
     QRNNLayer.training := true |}.

(** [QRNNLayer(1, 2, use_cuda=False)] *)
Definition narrow : QRNNLayer.t Z :=
  {| QRNNLayer.window := 1;
     QRNNLayer.input_size := 1;
     QRNNLayer.hidden_size := 2;
     QRNNLayer.zoneout := 0%Z;
     QRNNLayer.save_prev_x := false;
     QRNNLayer.prevX := None;
     QRNNLayer.output_gate := true;
     QRNNLayer.use_cuda := false;
     QRNNLayer.linear := nn_Linear 1 6 theta;
     QRNNLayer.training := true |}.

(** A packed sequence: three rows of one feature, batch sizes [2, 1], no
    index permutations. *)
Definition packed : pyobj Z :=
  PTuple [PTensor (T2 [[1]; [2]; [3]]); PTensor (T1 [2; 1]); PNone; PNone]%Z.

(** The keyword arguments [save_prev_x=True, window=2, use_cuda=False]. *)
Definition kw : QRNN.kwargs Z :=
  {| QRNN.save_prev_x := true;
     QRNN.zoneout := 0%Z;
     QRNN.window := 2;
     QRNN.output_gate := true;
     QRNN.use_cuda := false |}.

(** The layer unit that follows [layer] in a stack with three hidden
    units. *)
Definition second : QRNNLayer.t Z :=
  {| QRNNLayer.window := 2;
     QRNNLayer.input_size := 3;
     QRNNLayer.hidden_size := 3;
     QRNNLayer.zoneout := 0%Z;
     QRNNLayer.save_prev_x := true;
     QRNNLayer.prevX := None;
     QRNNLayer.output_gate := true;
     QRNNLayer.use_cuda := false;
     QRNNLayer.linear := nn_Linear 6 9 theta;
     QRNNLayer.training := true |}.

(** [QRNN(2, 3, num_layers=2, save_prev_x=True, window=2, use_cuda=False)] *)
Definition stack : QRNN.t Z :=
  {| QRNN.layers := [QRNN.Uni layer; QRNN.Uni second];
     QRNN.input_size := 2;
     QRNN.hidden_size := 3;
     QRNN.num_layers := 2;
     QRNN.bias := true;
     QRNN.batch_first := false;
     QRNN.dropout := 0%Z;
     QRNN.bidirectional := false;
     QRNN.training := true |}.

(** [BiDirQRNNLayer(2, 3, save_prev_x=True, window=2, use_cuda=False)] *)
Definition bidir : BiDirQRNNLayer.t Z :=
  {| BiDirQRNNLayer.window := 2;
     BiDirQRNNLayer.input_size := 2;
     BiDirQRNNLayer.hidden_size := 3;
     BiDirQRNNLayer.zoneout := 0%Z;
     BiDirQRNNLayer.save_prev_x := true;
     BiDirQRNNLayer.prevX := None;
     BiDirQRNNLayer.output_gate := true;
     BiDirQRNNLayer.use_cuda := false;
     BiDirQRNNLayer.forward_qrnn := layer;
     BiDirQRNNLayer.backward_qrnn := layer;
     BiDirQRNNLayer.training := true |}.

(** [QRNN(2, 3, num_layers=1, bidirectional=True, save_prev_x=True,
    window=2, use_cuda=False)] *)
Definition bistack : QRNN.t Z :=
  {| QRNN.layers := [QRNN.Bi bidir];
     QRNN.input_size := 2;
     QRNN.hidden_size := 3;
     QRNN.num_layers := 1;
     QRNN.bias := true;
     QRNN.batch_first := false;
     QRNN.dropout := 0%Z;
     QRNN.bidirectional := true;
     QRNN.training := true |}.

(** A packed sequence whose data has two features per row. *)
Definition packed2 : pyobj Z :=
  PTuple [PTensor (T2 [[1; 2]; [3; 4]]); PTensor (T1 [2]); PNone; PNone]%Z.

(** One time step, a batch of two, three features. *)
Definition X3w : list (list (list Z)) := [[[1; 2; 3]; [4; 5; 6]]]%Z.

(** One time step, a batch of two, four features. *)
Definition S4 : list (list (list Z)) := [[[1; 2; 3; 4]; [0; 1; 0; 1]]]%Z.


End Demo.

(** ** A second instance: numbers with infinities and NaN

    Rationals extended by the two infinities and NaN, with the rules of
    floating-point arithmetic for them (no rounding, and zero has no sign):
    NaN is absorbing and compares false with everything, and [inf * 0],
    [inf - inf], [0 / 0] and [inf / inf] are NaN.  [tanh] and [sigmoid] are
    rational functions of the same monotone shape and the same limits.  It
    serves to run the model on inputs and probabilities that integers
    cannot express. *)

Module Extended.

Inductive xnum : Type :=
| Fin (q : Q)
| PInf
| NInf
| NaN.

(** The sign: [Gt], [Lt], and [Eq] for zero and for NaN. *)
Definition sign (x : xnum) : comparison :=
  match x with
  | Fin q => (Qnum q ?= 0)%Z
  | PInf => Gt
  | NInf => Lt
  | NaN => Eq
  end.

Definition sign_mul (c c' : comparison) : comparison :=
  match c with
  | Eq => Eq
  | Gt => c'
  | Lt => CompOpp c'
  end.

(** The infinity of a sign; without a sign, NaN. *)
Definition inf_of (c : comparison) : xnum :=
  match c with
  | Gt => PInf
  | Lt => NInf
  | Eq => NaN
  end.

Definition xneg (x : xnum) : xnum :=
  match x with
  | Fin q => Fin (Qred (- q)%Q)
  | PInf => NInf
  | NInf => PInf
  | NaN => NaN
  end.

Definition xadd (x y : xnum) : xnum :=
  match x, y with
  | NaN, _ | _, NaN => NaN
  | Fin a, Fin b => Fin (Qred (a + b)%Q)
  | PInf, NInf | NInf, PInf => NaN
  | PInf, _ | _, PInf => PInf
  | NInf, _ | _, NInf => NInf
  end.

Definition xsub (x y : xnum) : xnum := xadd x (xneg y).

Definition xmul (x y : xnum) : xnum :=
  match x, y with
  | NaN, _ | _, NaN => NaN
  | Fin a, Fin b => Fin (Qred (a * b)%Q)
  | _, _ => inf_of (sign_mul (sign x) (sign y))
  end.

Definition xdiv (x y : xnum) : xnum :=
  match x, y with
  | NaN, _ | _, NaN => NaN
  | Fin a, Fin b => if Qeq_bool b 0%Q then inf_of (sign x) else Fin (Qred (a / b)%Q)
  | Fin _, _ => Fin 0%Q
  | _, Fin _ => inf_of (sign_mul (sign x) (match sign y with Eq => Gt | c => c end))
  | _, _ => NaN
  end.

Definition xeqb (x y : xnum) : bool :=
  match x, y with
  | Fin a, Fin b => Qeq_bool a b
  | PInf, PInf | NInf, NInf => true
  | _, _ => false
  end.

Definition xltb (x y : xnum) : bool :=
  match x, y with
  | NaN, _ | _, NaN => false
  | Fin a, Fin b => negb (Qle_bool b a)
  | _, NInf | PInf, _ => false
  | NInf, _ | _, PInf => true
  end.

Definition xleb (x y : xnum) : bool := xltb x y || xeqb x y.

(** [q / (1 + |q|)], in the place of the hyperbolic tangent. *)
Definition softsign (q : Q) : Q := Qred (q / (1 + Qabs q))%Q.

#[global] Instance xnum_Scalar : Scalar xnum := {|
  zero := Fin 0%Q;
  one := Fin 1%Q;
  add := xadd;
  sub := xsub;
  mul := xmul;
  div := xdiv;
  tanh := fun x =>
    match x with
    | Fin q => Fin (softsign q)
    | PInf => Fin 1%Q
    | NInf => Fin (-1)%Q
    | NaN => NaN
    end;
  sigmoid := fun x =>
    match x with
    | Fin q => Fin (Qred ((1 + softsign q) / 2)%Q)
    | PInf => Fin 1%Q
    | NInf => Fin 0%Q
    | NaN => NaN
    end;
  is_zero := fun x => xeqb x (Fin 0%Q);
  ltb := xltb;
  leb := xleb;
  eqb := xeqb
|}.

(** Probability 0 never draws a one and probability 1 always does; in
    between the draws follow a fixed pattern. *)
#[global] Instance xnum_Sampler : Sampler xnum := {|
  bernoulli_ := fun q idx =>
    if xleb q (Fin 0%Q) then false
    else if xleb (Fin 1%Q) q then true
    else Nat.even (list_sum idx)
|}.

Definition theta : params xnum :=
  (fun j i => Fin (inject_Z (Z.of_nat (j + i) - 2)),
   fun j => Fin (inject_Z (Z.of_nat j - 1))).

Definition half : xnum := Fin (1 # 2)%Q.


(** Two time steps, a batch of one, two features. *)
Definition X : list (list (list xnum)) :=
  [[[Fin 1%Q; Fin (-2)%Q]]; [[Fin (3 # 2)%Q; Fin 0%Q]]].


(** [QRNNLayer(2, 2, zoneout=0.5, save_prev_x=True, window=2,
    use_cuda=False)], in training mode and after [eval()]. *)
Definition layer (training : bool) : QRNNLayer.t xnum :=
  {| QRNNLayer.window := 2;
     QRNNLayer.input_size := 2;
     QRNNLayer.hidden_size := 2;
     QRNNLayer.zoneout := half;
     QRNNLayer.save_prev_x := true;
     QRNNLayer.prevX := None;
     QRNNLayer.output_gate := true;
     QRNNLayer.use_cuda := false;
     QRNNLayer.linear := nn_Linear 4 6 theta;
     QRNNLayer.training := training |}.

(** [QRNN(2, 2, num_layers=2, dropout=0.5, zoneout=0.5, save_prev_x=True,
    window=2, use_cuda=False)] *)
Definition stack : QRNN.t xnum :=
  {| QRNN.layers := [QRNN.Uni (layer true); QRNN.Uni (layer true)];
     QRNN.input_size := 2;
     QRNN.hidden_size := 2;
     QRNN.num_layers := 2;
     QRNN.bias := true;
     QRNN.batch_first := false;
     QRNN.dropout := half;
     QRNN.bidirectional := false;
     QRNN.training := true |}.

End Extended.

(** ** Lists *)

Section ListFacts.

Context {A B C D : Type}.

Lemma map2_length (f : A -> B -> C) (l : list A) (l' : list B) :
  length (map2 f l l') = Nat.min (length l) (length l').
Proof.
  revert l'; induction l as [|x l IH]; intros [|y l']; simpl; auto.
Qed.

Lemma map2_nth (f : A -> B -> C) (l : list A) (l' : list B) (i : nat) dc da db :
  i < length l -> i < length l' ->
  nth i (map2 f l l') dc = f (nth i l da) (nth i l' db).
Proof.
  revert l' i; induction l as [|x l IH]; intros [|y l'] [|i]; simpl; intros; try lia; auto.
  apply IH; lia.
Qed.

Lemma map2_Forall (f : A -> B -> C) (P : A -> Prop) (Q : B -> Prop) (S : C -> Prop)
  (l : list A) (l' : list B) :
  (forall x y, P x -> Q y -> S (f x y)) ->
  Forall P l -> Forall Q l' -> Forall S (map2 f l l').
Proof.
  intros Hf Hl; revert l'; induction Hl; intros l' Hl'; destruct Hl'; simpl; auto.
Qed.




Lemma tabulate_length (n : nat) (f : nat -> A) : length (tabulate n f) = n.
Proof. unfold tabulate; now rewrite length_map, length_seq. Qed.


Lemma tabulate_Forall (P : A -> Prop) (n : nat) (f : nat -> A) :
  (forall i, i < n -> P (f i)) -> Forall P (tabulate n f).
Proof.
  intros Hf; unfold tabulate; apply Forall_forall; intros x Hx.
  apply in_map_iff in Hx as [i [<- Hi]]; apply in_seq in Hi; apply Hf; lia.
Qed.

Lemma chunks_concat (n : nat) (l : list (list A)) :
  Forall (fun v => length v = n) l -> chunks (length l) n (concat l) = l.
Proof.
  induction 1 as [|v l Hv Hl IH]; simpl; auto.
  subst n.
  rewrite firstn_app, Nat.sub_diag, firstn_all, skipn_app, Nat.sub_diag, skipn_all.
  simpl; rewrite app_nil_r; f_equal; exact IH.
Qed.

Lemma firstn_Forall (P : A -> Prop) (n : nat) (l : list A) :
  Forall P l -> Forall P (firstn n l).
Proof.
  intros Hl; revert n; induction Hl; intros [|n]; simpl; auto.
Qed.


Lemma concat_length_const (n : nat) (l : list (list A)) :
  Forall (fun v => length v = n) l -> length (concat l) = length l * n.
Proof.
  induction 1 as [|v l Hv Hl IH]; simpl; auto.
  rewrite length_app, IH, Hv; lia.
Qed.

End ListFacts.

(** ** The torch operations on arrays of known extents *)

Section TensorFacts.

Context {R : Type} `{SR : Scalar R} `{SM : Sampler R}.

Lemma list_eqb_refl (l : list nat) : list_eqb l l = true.
Proof. unfold list_eqb; destruct (list_eq_dec Nat.eq_dec l l); congruence. Qed.

Lemma shape2_hd (B D : nat) (m : list (list R)) :
  shape2 B D m -> 1 <= B -> length (hd [] m) = D.
Proof.
  intros [Hl Hf] HB; destruct m as [|v m]; simpl in *; [lia|].
  now inversion Hf.
Qed.

Lemma shape3_hd (T B D : nat) (a : list (list (list R))) :
  shape3 T B D a -> 1 <= T -> shape2 B D (hd [] a).
Proof.
  intros [Hl Hf] HT; destruct a as [|m a]; simpl in *; [lia|].
  now inversion Hf.
Qed.

Lemma shape2_size (B D : nat) (m : list (list R)) :
  shape2 B D m -> 1 <= B -> size (T2 m) = [B; D].
Proof.
  intros Hm HB; simpl; rewrite (shape2_hd Hm HB); destruct Hm as [-> _]; auto.
Qed.

Lemma shape3_size (T B D : nat) (a : list (list (list R))) :
  shape3 T B D a -> 1 <= T -> 1 <= B -> size (T3 a) = [T; B; D].
Proof.
  intros Ha HT HB; simpl.
  pose proof (shape3_hd Ha HT) as Hm.
  rewrite (shape2_hd Hm HB); destruct Hm as [-> _]; destruct Ha as [-> _]; auto.
Qed.

Lemma shape3_nth (T B D : nat) (a : list (list (list R))) (t : nat) :
  shape3 T B D a -> t < T -> shape2 B D (nth t a []).
Proof.
  intros [Hl Hf] Ht; rewrite Forall_forall in Hf; apply Hf, nth_In; lia.
Qed.

Lemma shape2_nth (B D : nat) (m : list (list R)) (b : nat) :
  shape2 B D m -> b < B -> length (nth b m []) = D.
Proof.
  intros [Hl Hf] Hb; rewrite Forall_forall in Hf; apply Hf, nth_In; lia.
Qed.

Lemma concat_concat_map (a : list (list (list R))) :
  concat (concat a) = concat (map (@concat R) a).
Proof.
  induction a as [|m a IH]; simpl; auto.
  now rewrite concat_app, IH.
Qed.

Lemma shape2_data (B D : nat) (m : list (list R)) :
  shape2 B D m -> length (concat m) = B * D.
Proof. intros [Hl Hf]; rewrite (concat_length_const Hf), Hl; auto. Qed.

Lemma shape3_data (T B D : nat) (a : list (list (list R))) :
  shape3 T B D a -> length (data (T3 a)) = T * B * D.
Proof.
  intros [Hl Hf]; simpl; rewrite concat_concat_map.
  rewrite (@concat_length_const _ (B * D)).
  - rewrite length_map, Hl; lia.
  - apply Forall_map; eapply Forall_impl; [|exact Hf].
    intros m Hm; now apply shape2_data.
Qed.

(** A view with the extents the array already has is the array. *)
Lemma view3_same (T B D : nat) (a : list (list (list R))) :
  shape3 T B D a -> view3 (T3 a) T B D = Ok (T3 a).
Proof.
  intros Ha; unfold view3; rewrite (shape3_data Ha), Nat.eqb_refl.
  destruct Ha as [Hl Hf]; do 2 f_equal; simpl.
  rewrite concat_concat_map.
  replace T with (length (map (@concat R) a)) by now rewrite length_map.
  rewrite chunks_concat.
  - rewrite map_map; rewrite <- (map_id a) at 2.
    apply map_ext_in; intros m Hm.
    rewrite Forall_forall in Hf; destruct (Hf m Hm) as [Hlm Hfm].
    rewrite <- Hlm; now apply chunks_concat.
  - apply Forall_map; eapply Forall_impl; [|exact Hf].
    intros m Hm; now apply shape2_data.
Qed.





Lemma app_shape3 (T B D D' : nat) (a a' : list (list (list R))) :
  shape3 T B D a -> shape3 T B D' a' ->
  shape3 T B (D + D') (map2 (map2 (@app R)) a a').
Proof.
  intros [Hl Hf] [Hl' Hf']; split.
  - rewrite map2_length; lia.
  - eapply map2_Forall; [|exact Hf|exact Hf'].
    intros m m' [Hm Hfm] [Hm' Hfm']; split.
    + rewrite map2_length; lia.
    + eapply map2_Forall; [|exact Hfm|exact Hfm'].
      intros v v' Hv Hv'; simpl in *; rewrite length_app; lia.
Qed.

Lemma cat_last_shape3 (T B D D' : nat) (a a' : list (list (list R))) :
  shape3 T B D a -> shape3 T B D' a' -> 1 <= T -> 1 <= B ->
  cat_last (T3 a) (T3 a') = Ok (T3 (map2 (map2 (@app R)) a a')).
Proof.
  intros Ha Ha' HT HB; unfold cat_last.
  now rewrite (shape3_size Ha HT HB), (shape3_size Ha' HT HB), list_eqb_refl.
Qed.


Lemma skipn_last (A : Type) (l : list A) (d : A) :
  1 <= length l -> skipn (length l - 1) l = [last l d].
Proof.
  intros Hl; destruct (exists_last (l := l)) as [l' [x ->]].
  - intros ->; simpl in Hl; lia.
  - rewrite length_app, last_last, skipn_app; simpl.
    replace (length l' + 1 - 1) with (length l') by lia.
    now rewrite skipn_all, Nat.sub_diag.
Qed.

Lemma last_shape3 (T B D : nat) (a : list (list (list R))) :
  shape3 T B D a -> 1 <= T -> shape3 1 B D [last a []].
Proof.
  intros [Hl Hf] HT; split; auto.
  constructor; auto.
  rewrite Forall_forall in Hf; apply Hf.
  destruct (exists_last (l := a)) as [l' [x ->]].
  - intros ->; simpl in Hl; lia.
  - rewrite last_last; apply in_or_app; right; now left.
Qed.



Lemma at3_map (f : R -> R) (T B D : nat) (a : list (list (list R))) (t b d : nat) :
  shape3 T B D a -> t < T -> b < B -> d < D ->
  at3 (map (map (map f)) a) t b d = f (at3 a t b d).
Proof.
  intros Ha Ht Hb Hd; unfold at3, at2.
  pose proof (shape3_nth Ha Ht) as Hm; pose proof (shape2_nth Hm Hb) as Hv.
  destruct Ha as [Hla _]; destruct Hm as [Hlm _].
  rewrite (nth_indep _ [] (map (map f) [])) by (rewrite length_map; lia).
  rewrite map_nth.
  rewrite (nth_indep _ [] (map f [])) by (rewrite length_map; lia).
  rewrite map_nth.
  rewrite (nth_indep _ zero (f zero)) by (rewrite length_map; lia).
  now rewrite map_nth.
Qed.




End TensorFacts.

(** ** The stages of [QRNNLayer.forward] *)

Section LayerFacts.

Context {R : Type} `{SR : Scalar R} `{SM : Sampler R}.

Lemma linear_row_length (l : Linear R) (x : list R) :
  linear_ok l -> length (linear_row l x) = out_features l.
Proof.
  intros [Hw Hb]; unfold linear_row; rewrite map2_length; lia.
Qed.

Lemma linear_forward_shape3 (l : Linear R) (T B D : nat) (a : list (list (list R))) :
  shape3 T B D a -> 1 <= T -> 1 <= B -> in_features l = D -> linear_ok l ->
  linear_forward l (T3 a) = Ok (T3 (map (map (linear_row l)) a)) /\
  shape3 T B (out_features l) (map (map (linear_row l)) a).
Proof.
  intros Ha HT HB Hin Hl; split.
  - unfold linear_forward; rewrite (shape3_size Ha HT HB); simpl.
    now rewrite Hin, Nat.eqb_refl.
  - destruct Ha as [Hla Hf]; split; [now rewrite length_map|].
    apply Forall_map; eapply Forall_impl; [|exact Hf].
    intros m [Hlm Hfm]; split; [now rewrite length_map|].
    apply Forall_map; eapply Forall_impl; [|exact Hfm].
    intros v _; now apply linear_row_length.
Qed.

Lemma piece_shape3 (T B D h i : nat) (a : list (list (list R))) :
  shape3 T B D a -> i * h + h <= D ->
  shape3 T B h (map (map (fun v => firstn h (skipn (i * h) v))) a).
Proof.
  intros [Hl Hf] Hi; split; [now rewrite length_map|].
  apply Forall_map; eapply Forall_impl; [|exact Hf].
  intros m [Hlm Hfm]; split; [now rewrite length_map|].
  apply Forall_map; eapply Forall_impl; [|exact Hfm].
  intros v Hv; simpl in *; rewrite length_firstn, length_skipn; lia.
Qed.

Lemma ceil_div_pieces (n h : nat) :
  1 <= n -> ceil_div (n * h) n = h /\
            (if n * h =? 0 then n else ceil_div (n * h) h) = n.
Proof.
  intros Hn; unfold ceil_div; split.
  - symmetry; apply (Nat.div_unique _ _ _ (n - 1)); lia.
  - destruct (Nat.eqb_spec (n * h) 0) as [E|E]; auto.
    assert (1 <= h) by (destruct h; lia).
    symmetry; apply (Nat.div_unique _ _ _ (h - 1)); lia.
Qed.

Lemma chunk2_pieces (n T B h : nat) (a : list (list (list R))) :
  shape3 T B (n * h) a -> 1 <= T -> 1 <= B -> 1 <= n ->
  chunk2 n (T3 a) =
    Ok (tabulate n (fun i => T3 (map (map (fun v => firstn h (skipn (i * h) v))) a))).
Proof.
  intros Ha HT HB Hn; unfold chunk2.
  rewrite (shape3_size Ha HT HB); cbn [nth].
  destruct (ceil_div_pieces h Hn) as [-> ->]; reflexivity.
Qed.


Lemma firstn_shape3 (T B D n : nat) (a : list (list (list R))) :
  shape3 T B D a -> n <= T -> shape3 n B D (firstn n a).
Proof.
  intros [Hl Hf] Hn; split; [rewrite length_firstn; lia|now apply firstn_Forall].
Qed.

Lemma shifted_shape3 (T B D : nat) (p : option (tensor R)) (a : list (list (list R))) :
  shape3 T B D a -> 1 <= T -> prevX_ok B D p -> shape3 T B D (shifted p a).
Proof.
  intros Ha HT Hp; unfold shifted.
  assert (Hb : shape2 B D (match p with
                           | Some (T3 [x]) => x
                           | _ => map (map (fun x => mul x zero)) (hd [] a)
                           end)).
  { assert (Hz : shape2 B D (map (map (fun x => mul x zero)) (hd [] a))).
    { destruct (shape3_hd Ha HT) as [Hl Hf]; split; [now rewrite length_map|].
      apply Forall_map; eapply Forall_impl; [|exact Hf].
      intros v Hv; simpl; now rewrite length_map. }
    destruct p as [[| | |[|x [|y l]]]|]; simpl in Hp; auto; contradiction. }
  destruct (firstn_shape3 (n := T - 1) Ha) as [Hl Hf]; [lia|].
  destruct Ha as [Hla _]; split.
  - simpl; rewrite Hla in *; rewrite Hl; lia.
  - constructor; auto; now rewrite Hla.
Qed.

(** Lines 74-79 on a rank-3 input: the list holds the boundary step alone
    when the input has one time step, and otherwise also the non-empty slice
    of all steps but the last; it concatenates to [shifted]. *)
Lemma shifted_parts_run (self : QRNNLayer.t R) (T B D : nat) (a : list (list (list R))) :
  shape3 T B D a -> 1 <= T -> 1 <= B -> prevX_ok B D (QRNNLayer.prevX self) ->
  QRNNLayer.shifted_parts self (T3 a) =
    Ok (T3 [hd [] (shifted (QRNNLayer.prevX self) a)] ::
        (if 1 <? T then [T3 (firstn (T - 1) a)] else [])) /\
  cat0 (T3 [hd [] (shifted (QRNNLayer.prevX self) a)] ::
        (if 1 <? T then [T3 (firstn (T - 1) a)] else [])) =
    Ok (T3 (shifted (QRNNLayer.prevX self) a)).
Proof.
  intros Ha HT HB Hp; unfold QRNNLayer.shifted_parts, shifted; cbn [hd].
  pose proof (shape3_hd Ha HT) as Hhd.
  destruct Ha as [Hla Hfa].
  destruct a as [|m a]; [simpl in Hla; lia|]; simpl in Hhd.
  set (bnd := match QRNNLayer.prevX self with
              | Some (T3 [x]) => x
              | _ => map (map (fun x => mul x zero)) (hd [] (m :: a))
              end).
  assert (Hbnd : match QRNNLayer.prevX self with
                 | Some p => Ok p
                 | None => let* x0 := slice_first (T3 (m :: a)) in Ok (mul_scalar x0 zero)
                 end = Ok (T3 [bnd]) /\ shape2 B D bnd).
  { subst bnd; destruct (QRNNLayer.prevX self) as [[| | |[|x [|y l]]]|];
      simpl in Hp; try contradiction; simpl; split; auto.
    destruct Hhd as [Hl Hf]; split; [now rewrite length_map|].
    apply Forall_map; eapply Forall_impl; [|exact Hf].
    intros v Hv; simpl; now rewrite length_map. }
  destruct Hbnd as [-> Hbs]; cbn [rbind len].
  rewrite Hla.
  destruct (Nat.ltb_spec 1 T) as [Hlt|Hge].
  - cbn [rbind slice_but_last app cat0 cat0_onto]; rewrite Hla.
    split; [reflexivity|].
    assert (Hf : shape3 (T - 1) B D (firstn (T - 1) (m :: a))).
    { apply firstn_shape3 with (T := T); [split; auto|lia]. }
    rewrite (shape3_size Hf) by lia.
    assert (Hb1 : shape3 1 B D [bnd]) by (split; auto).
    rewrite (shape3_size Hb1) by lia.
    cbn [tl]; now rewrite list_eqb_refl.
  - split; [reflexivity|].
    cbn [cat0 cat0_onto]; replace (T - 1) with 0 by lia; reflexivity.
Qed.

Lemma build_source_window1 (self : QRNNLayer.t R) (X : tensor R) :
  QRNNLayer.window self = 1 -> QRNNLayer.build_source self X = Ok X.
Proof. intros Hw; unfold QRNNLayer.build_source; now rewrite Hw. Qed.

Lemma build_source_window2 (self : QRNNLayer.t R) (T B D : nat)
  (a : list (list (list R))) :
  QRNNLayer.window self = 2 ->
  shape3 T B D a -> 1 <= T -> 1 <= B -> prevX_ok B D (QRNNLayer.prevX self) ->
  QRNNLayer.build_source self (T3 a) =
    Ok (T3 (map2 (map2 (@app R)) a (shifted (QRNNLayer.prevX self) a))) /\
  shape3 T B (2 * D) (map2 (map2 (@app R)) a (shifted (QRNNLayer.prevX self) a)).
Proof.
  intros Hw Ha HT HB Hp; unfold QRNNLayer.build_source; rewrite Hw; cbn [Nat.eqb].
  destruct (shifted_parts_run self Ha HT HB Hp) as (Hp1 & Hp2).
  rewrite Hp1; cbn [rbind]; rewrite Hp2; cbn [rbind].
  pose proof (shifted_shape3 _ Ha HT Hp) as Hs.
  rewrite (cat_last_shape3 Ha Hs HT HB); split; auto.
  replace (2 * D) with (D + D) by lia; now apply app_shape3.
Qed.










End LayerFacts.

(** ** The layer: scan, window, zoneout, output gate *)

Section LayerClaims.

Context {R : Type} `{SR : Scalar R} `{SM : Sampler R}.









End LayerClaims.

(** ** Construction *)

Section InitClaims.

Context {R : Type} `{SR : Scalar R} `{SM : Sampler R}.

Lemma window_accepted (window : nat) :
  window = 1 \/ window = 2 -> existsb (Nat.eqb window) [1; 2] = true.
Proof. intros [-> | ->]; reflexivity. Qed.

Lemma nn_Linear_ok (n_in n_out : nat) (theta : params R) :
  linear_ok (nn_Linear n_in n_out theta).
Proof. split; apply tabulate_length. Qed.



(** C10. A layer constructed with [hidden_size] 0, like one constructed
    without a [hidden_size], has the hidden dimension [input_size]: the
    construction succeeds, and the same holds for a bidirectional layer and
    for each of its two directions. *)
Theorem falsy_hidden_size_is_input_size (theta theta' : params R) (input_size : nat)
  (hidden_size : option nat) (save_prev_x : bool) (zoneout : R) (window : nat)
  (output_gate use_cuda : bool) :
  window = 1 \/ window = 2 ->
  hidden_size = Some 0 \/ hidden_size = None ->
  (exists l,
     QRNNLayer.__init__ theta input_size hidden_size save_prev_x zoneout window
       output_gate use_cuda = Ok l /\
     QRNNLayer.hidden_size l = input_size /\
     out_features (QRNNLayer.linear l) = (if output_gate then 3 else 2) * input_size) /\
  (exists b,
     BiDirQRNNLayer.__init__ theta theta' input_size hidden_size save_prev_x zoneout
       window output_gate use_cuda = Ok b /\
     BiDirQRNNLayer.hidden_size b = input_size /\
     QRNNLayer.hidden_size (BiDirQRNNLayer.forward_qrnn b) = input_size /\
     QRNNLayer.hidden_size (BiDirQRNNLayer.backward_qrnn b) = input_size).
Proof.
  intros Hw Hh.
  assert (E : QRNNLayer.hidden_or_input hidden_size input_size = input_size)
    by (destruct Hh as [-> | ->]; reflexivity).
  split.
  - unfold QRNNLayer.__init__; rewrite (window_accepted Hw), E.
    eexists; split; [reflexivity|]; split; [reflexivity|].
    now destruct output_gate.
  - unfold BiDirQRNNLayer.__init__, QRNNLayer.__init__; rewrite (window_accepted Hw), E.
    cbn [rbind]; eexists; split; [reflexivity|]; repeat split.
Qed.

End InitClaims.

(** ** The bidirectional layer *)

Section BiDirClaims.

Context {R : Type} `{SR : Scalar R} `{SM : Sampler R}.



End BiDirClaims.

(** ** The stack *)

Section StackClaims.

Context {R : Type} `{SR : Scalar R} `{SM : Sampler R}.



















End StackClaims.

(** ** Inputs that are not rank-3 arrays *)

Section InputClaims.

Context {R : Type} `{SR : Scalar R} `{SM : Sampler R}.

Lemma forward_raises (self : QRNNLayer.t R) (X : pyobj R) (hidden : option (tensor R))
  (o o' : stdout) (e : exn) :
  QRNNLayer.read_input X self o = (self, o', Raise e) ->
  QRNNLayer.forward X hidden self o = (self, o', Raise e).
Proof. intros H; unfold QRNNLayer.forward, bind; now rewrite H. Qed.

Ltac run_read_input :=
  unfold QRNNLayer.read_input, try_except, bind, lift, ret, print;
  cbn [as_tensor py_iter unpack2 unpack3 unpack4 size map py_getitem0 getitem
       nth_error rbind py_int data length Nat.eqb].

(** Reading the sizes from anything but a rank-3 array or a sequence of
    four items that starts with a rank-2 array raises, and the layer stays
    as it was. *)
Lemma read_input_raises (self : QRNNLayer.t R) (X : pyobj R) (o : stdout) :
  (forall a, X <> PTensor (T3 a)) ->
  (forall d bs si ui, X <> PTuple [PTensor (T2 d); bs; si; ui]) ->
  exists e o', QRNNLayer.read_input X self o = (self, o', Raise e).
Proof.
  intros H3 H4; destruct X as [|[x|v|m|a]|items].
  - run_read_input; eauto.
  - run_read_input; eauto.
  - destruct v as [|x0 [|x1 [|x2 [|x3 [|x4 v]]]]]; run_read_input; eauto.
  - destruct m as [|r0 [|r1 [|r2 [|r3 [|r4 m]]]]]; run_read_input; eauto.
    destruct r1 as [|y r1]; run_read_input; eauto.
  - exfalso; now apply (H3 a).
  - destruct items as [|x [|bs [|si [|ui [|z items]]]]]; run_read_input; eauto.
    destruct (py_getitem0 bs) as [mb|e]; run_read_input; eauto.
    destruct (py_int mb) as [[]|e]; run_read_input; eauto.
    destruct x as [|[x|v|m|a]|xs]; run_read_input; eauto.
    exfalso; now apply (H4 m bs si ui).
Qed.

(** C7 as the code has it.  An input that is neither a rank-3 array nor a
    sequence of four items starting with a rank-2 array makes [forward]
    raise at once, the layer unchanged.  A sequence of four items
    (data, batch_sizes, sorted_indices, unsorted_indices) with rank-2 data
    and a first batch size that converts to an integer is not rejected: the
    size of the data is printed and its two extents are taken as
    (seq_len, batch_size). *)
Theorem non_array_input (self : QRNNLayer.t R) (X : pyobj R)
  (hidden : option (tensor R)) (o : stdout) :
  (forall a, X <> PTensor (T3 a)) ->
  ((forall d bs si ui, X <> PTuple [PTensor (T2 d); bs; si; ui]) ->
     exists e o', QRNNLayer.forward X hidden self o = (self, o', Raise e)) /\
  (forall d bs si ui mb,
     X = PTuple [PTensor (T2 d); bs; si; ui] ->
     py_getitem0 bs = Ok mb -> py_int mb = Ok tt ->
     QRNNLayer.read_input X self o =
       (self, o ++ [size (T2 d)], Ok (T2 d, length d, length (hd [] d)))).
Proof.
  intros H3; split.
  - intros H4; destruct (read_input_raises self o H3 H4) as (e & o' & Hr).
    exists e, o'; now apply forward_raises.
  - intros d bs si ui mb -> Hb Hi; run_read_input.
    rewrite Hb; cbn [rbind]; rewrite Hi; reflexivity.
Qed.

End InputClaims.

(** ** Reset *)

Section ResetClaims.

Context {R : Type} `{SR : Scalar R} `{SM : Sampler R}.

(** On unidirectional units the comprehension of [reset] clears every
    cache. *)
Lemma reset_each_uni (ls : list (QRNN.layer R)) (o : stdout) :
  forallb is_uni ls = true ->
  for_each QRNN.layer_reset ls o = (map unit_cleared ls, o, Ok (map (fun _ => tt) ls)).
Proof.
  induction ls as [|[q|b] ls IH]; simpl; intros H; auto; [|discriminate].
  unfold get, put, bind, QRNNLayer.reset; simpl; now rewrite (IH H).
Qed.

(** At the first bidirectional unit the comprehension stops with an
    [AttributeError]; the units before it are cleared, that unit and the
    ones after it are left as they were. *)
Lemma reset_each_bi (pre post : list (QRNN.layer R)) (b : BiDirQRNNLayer.t R)
  (o : stdout) :
  forallb is_uni pre = true ->
  for_each QRNN.layer_reset (pre ++ QRNN.Bi b :: post) o =
    (map unit_cleared pre ++ QRNN.Bi b :: post, o, Raise AttributeError).
Proof.
  induction pre as [|[q|b'] pre IH]; simpl; intros H; auto; [|discriminate].
  unfold get, put, bind, QRNNLayer.reset; simpl; now rewrite (IH H).
Qed.

End ResetClaims.

(** ** The model on concrete inputs *)

Lemma one_le_2 : 1 <= 2.
Proof. lia. Qed.

Lemma one_le_3 : 1 <= 3.
Proof. lia. Qed.

Lemma demo_layer_ok : layer_ok Demo.layer.
Proof. repeat split; first [reflexivity | right; reflexivity]. Qed.

Lemma demo_second_ok : layer_ok Demo.second.
Proof. repeat split; first [reflexivity | right; reflexivity]. Qed.

Lemma demo_X0_shape : shape3 3 2 2 Demo.X0.
Proof. repeat constructor. Qed.



Example demo_layer_init :
  QRNNLayer.__init__ Demo.theta 2 (Some 3) true 0%Z 2 true false = Ok Demo.layer.
Proof. reflexivity. Qed.

Example demo_stack_init :
  QRNN.__init__ (fun _ => (Demo.theta, Demo.theta)) 2 3 2 true false 0%Z false None
    Demo.kw = Ok Demo.stack.
Proof. reflexivity. Qed.






Lemma extended_layer_ok (training : bool) : layer_ok (Extended.layer training).
Proof. repeat split; first [reflexivity | right; reflexivity]. Qed.





Lemma falsy_hidden_size_is_input_size_witness :
  (2 = 1 \/ 2 = 2) /\
  exists l,
    QRNNLayer.__init__ Demo.theta 5 (Some 0) false 0%Z 2 true true = Ok l /\
    QRNNLayer.hidden_size l = 5.
Proof.
  split; [right; reflexivity|].
  destruct (@falsy_hidden_size_is_input_size Z Demo.theta Demo.theta 5 (Some 0)
              false 0%Z 2 true true (or_intror eq_refl) (or_introl eq_refl))
    as [(l & Hl & Hh & _) _].
  exists l; exact (conj Hl Hh).
Defined.




Lemma non_array_input_witness :
  (forall a, Demo.packed <> PTensor (T3 a)) /\
  QRNNLayer.read_input Demo.packed Demo.narrow [] =
    (Demo.narrow, [[3; 1]], Ok (T2 [[1]; [2]; [3]]%Z, 3, 1)).
Proof.
  assert (H3 : forall a, Demo.packed <> PTensor (T3 a)) by (intros a; discriminate).
  split; [exact H3|].
  destruct (non_array_input Demo.narrow None [] H3) as [_ H].
  exact (H _ _ _ _ _ eq_refl eq_refl eq_refl).
Defined.

(** C7 as the spec states it fails: a packed sequence is not a
    (time, batch, feature) array, yet a layer with one input feature
    accepts it, reading its three rows as three time steps of a batch of
    one. *)
Lemma packed_sequence_accepted :
  (forall a, Demo.packed <> PTensor (T3 a)) /\
  QRNNLayer.forward Demo.packed None Demo.narrow [] =
    (Demo.narrow, [[3; 1]],
     Ok (T3 [[[-1; -1]]; [[-1; -1]]; [[-1; -1]]]%Z, T3 [[[-1; -1]]]%Z)).
Proof.
  split; [intros a; discriminate|reflexivity].
Qed.

(** C6 at a bidirectional stack.  After one [forward] both directions of
    the unit hold a cached step; [reset] then raises [AttributeError] and
    leaves the stack as it was, so the next sequence is windowed against
    the stale step where a fresh stack uses zeros. *)
Theorem reset_on_bidirectional_stack :
  QRNN.__init__ (fun _ => (Demo.theta, Demo.theta)) 2 3 1 true false 0%Z true None
    Demo.kw = Ok Demo.bistack /\
  (exists out h_n,
     QRNN.forward (PTensor (T3 Demo.X0)) None Demo.bistack [] =
       (QRNN.set_layers Demo.bistack [QRNN.Bi (bidir_after Demo.bidir Demo.X0)], [],
        Ok (out, h_n))) /\
  caches (QRNN.set_layers Demo.bistack [QRNN.Bi (bidir_after Demo.bidir Demo.X0)]) =
    [Some (T3 [[[-1; 0]; [2; -3]]]%Z); Some (T3 [[[1; 2]; [3; 4]]]%Z)] /\
  QRNN.reset (QRNN.set_layers Demo.bistack [QRNN.Bi (bidir_after Demo.bidir Demo.X0)]) [] =
    (QRNN.set_layers Demo.bistack [QRNN.Bi (bidir_after Demo.bidir Demo.X0)], [],
     Raise AttributeError) /\
  QRNNLayer.build_source
    (BiDirQRNNLayer.forward_qrnn (bidir_after Demo.bidir Demo.X0)) (T3 Demo.X1) =
    Ok (T3 [[[4; -1; -1; 0]; [0; 2; 2; -3]]]%Z) /\
  QRNNLayer.build_source (BiDirQRNNLayer.forward_qrnn Demo.bidir) (T3 Demo.X1) =
    Ok (T3 [[[4; -1; 0; 0]; [0; 2; 0; 0]]]%Z).
Proof.
  split; [reflexivity|]; split; [eexists; eexists; reflexivity|].
  repeat split.
Qed.

(** ** Further properties: construction *)

Section ConstructionFacts.

Context {R : Type} `{SR : Scalar R} `{SM : Sampler R}.

Lemma window_rejected (window : nat) :
  window <> 1 -> window <> 2 -> existsb (Nat.eqb window) [1; 2] = false.
Proof.
  intros H1 H2; simpl.
  destruct (Nat.eqb_spec window 1); [contradiction|].
  destruct (Nat.eqb_spec window 2); [contradiction|reflexivity].
Qed.

(** X1. [QRNNLayer] and [BiDirQRNNLayer] are constructed exactly for the
    windows 1 and 2; any other window is an [AssertionError], whatever the
    other arguments. *)
Theorem window_validation (theta theta' : params R) (input_size : nat)
  (hidden_size : option nat) (save_prev_x : bool) (zoneout : R) (window : nat)
  (output_gate use_cuda : bool) :
  (window = 1 \/ window = 2 ->
     (exists l,
        QRNNLayer.__init__ theta input_size hidden_size save_prev_x zoneout window
          output_gate use_cuda = Ok l /\
        QRNNLayer.window l = window /\ QRNNLayer.prevX l = None) /\
     (exists b,
        BiDirQRNNLayer.__init__ theta theta' input_size hidden_size save_prev_x
          zoneout window output_gate use_cuda = Ok b /\
        BiDirQRNNLayer.window b = window /\
        QRNNLayer.window (BiDirQRNNLayer.forward_qrnn b) = window /\
        QRNNLayer.window (BiDirQRNNLayer.backward_qrnn b) = window)) /\
  (window <> 1 -> window <> 2 ->
     QRNNLayer.__init__ theta input_size hidden_size save_prev_x zoneout window
       output_gate use_cuda = Raise AssertionError /\
     BiDirQRNNLayer.__init__ theta theta' input_size hidden_size save_prev_x
       zoneout window output_gate use_cuda = Raise AssertionError).
Proof.
  split.
  - intros Hw; unfold BiDirQRNNLayer.__init__, QRNNLayer.__init__.
    rewrite (window_accepted Hw); cbn [rbind]; split; eexists; repeat split.
  - intros H1 H2; unfold BiDirQRNNLayer.__init__, QRNNLayer.__init__.
    now rewrite (window_rejected H1 H2).
Qed.

(** X2. The projection of a constructed layer maps [window * input_size]
    features to 3 (with an output gate) or 2 times [hidden_size] features:
    its weight has that many rows of that many columns and its bias that
    many entries, where [hidden_size] is the argument when it is positive.
    Applied to a row of any other width it raises [RuntimeError]. *)
Theorem projection_extents (theta : params R) (input_size h : nat)
  (save_prev_x : bool) (zoneout : R) (window : nat) (output_gate use_cuda : bool) :
  window = 1 \/ window = 2 ->
  exists l,
    QRNNLayer.__init__ theta input_size (Some (S h)) save_prev_x zoneout window
      output_gate use_cuda = Ok l /\
    QRNNLayer.hidden_size l = S h /\
    in_features (QRNNLayer.linear l) = window * input_size /\
    out_features (QRNNLayer.linear l) = (if output_gate then 3 else 2) * S h /\
    length (weight (QRNNLayer.linear l)) = out_features (QRNNLayer.linear l) /\
    Forall (fun w => length w = in_features (QRNNLayer.linear l))
      (weight (QRNNLayer.linear l)) /\
    length (bias (QRNNLayer.linear l)) = out_features (QRNNLayer.linear l) /\
    (forall x : list R,
       length x = window * input_size ->
       exists y, linear_forward (QRNNLayer.linear l) (T1 x) = Ok (T1 y) /\
                 length y = (if output_gate then 3 else 2) * S h) /\
    (forall x : list R,
       length x <> window * input_size ->
       linear_forward (QRNNLayer.linear l) (T1 x) = Raise RuntimeError).
Proof.
  intros Hw; unfold QRNNLayer.__init__; rewrite (window_accepted Hw).
  eexists; split; [reflexivity|]; cbn [QRNNLayer.hidden_size QRNNLayer.linear
    QRNNLayer.hidden_or_input nn_Linear in_features out_features weight bias].
  assert (Ho : (if output_gate then 3 * S h else 2 * S h) =
               (if output_gate then 3 else 2) * S h) by now destruct output_gate.
  rewrite Ho.
  split; [reflexivity|]; split; [reflexivity|]; split; [reflexivity|].
  split; [apply tabulate_length|].
  split; [apply tabulate_Forall; intros; apply tabulate_length|].
  split; [apply tabulate_length|]; split.
  - intros x Hx; unfold linear_forward; cbn [size last in_features].
    rewrite Hx, Nat.eqb_refl; eexists; split; [reflexivity|].
    unfold linear_row, nn_Linear; cbn [weight bias].
    rewrite map2_length, !tabulate_length; lia.
  - intros x Hx; unfold linear_forward, nn_Linear; cbn [size last in_features].
    destruct (Nat.eqb_spec (length x) (window * input_size)); [contradiction|reflexivity].
Qed.

(** X3. [QRNN.__init__] refuses batch-first layout and bias-free
    projections with an [AssertionError] before it looks at anything else;
    and when no layers are supplied, a window other than 1 or 2 makes it
    fail exactly when there is at least one layer to build. *)
Theorem stack_construction_errors (thetas : nat -> params R * params R)
  (input_size hidden_size num_layers : nat) (bias batch_first : bool) (dropout : R)
  (bidirectional : bool) (layers : option (list (QRNN.layer R))) (kw : QRNN.kwargs R) :
  (batch_first = true \/ bias = false ->
     QRNN.__init__ thetas input_size hidden_size num_layers bias batch_first dropout
       bidirectional layers kw = Raise AssertionError) /\
  (QRNN.window kw <> 1 -> QRNN.window kw <> 2 -> 1 <= num_layers ->
     QRNN.__init__ thetas input_size hidden_size num_layers true false dropout
       bidirectional None kw = Raise AssertionError) /\
  (exists q,
     QRNN.__init__ thetas input_size hidden_size 0 true false dropout
       bidirectional None kw = Ok q /\
     QRNN.layers q = [] /\ QRNN.num_layers q = 0).
Proof.
  split; [|split].
  - intros [-> | ->]; unfold QRNN.__init__; [reflexivity|].
    now destruct batch_first.
  - intros H1 H2 Hn; unfold QRNN.__init__; cbn [Bool.eqb negb QRNN.given].
    destruct num_layers as [|n]; [lia|]; cbn [seq collect].
    unfold BiDirQRNNLayer.__init__, QRNNLayer.__init__.
    rewrite (window_rejected H1 H2); now destruct bidirectional.
  - unfold QRNN.__init__; cbn [Bool.eqb negb QRNN.given seq collect].
    destruct bidirectional; cbn [rbind]; eexists; repeat split.
Qed.

(** X4. A non-empty list of preconstructed layers is taken as it is:
    [num_layers] becomes its length and the arguments [num_layers],
    [bidirectional] and the keyword arguments play no part in which layers
    the stack holds.  An empty list counts as no list. *)
Theorem stack_supplied_layers (thetas : nat -> params R * params R)
  (input_size hidden_size num_layers : nat) (dropout : R) (bidirectional : bool)
  (l : QRNN.layer R) (ls : list (QRNN.layer R)) (kw : QRNN.kwargs R) :
  (exists q,
     QRNN.__init__ thetas input_size hidden_size num_layers true false dropout
       bidirectional (Some (l :: ls)) kw = Ok q /\
     QRNN.layers q = l :: ls /\
     QRNN.num_layers q = S (length ls) /\
     QRNN.bidirectional q = bidirectional /\
     QRNN.hidden_size q = hidden_size) /\
  QRNN.__init__ thetas input_size hidden_size num_layers true false dropout
    bidirectional (Some []) kw =
  QRNN.__init__ thetas input_size hidden_size num_layers true false dropout
    bidirectional None kw.
Proof.
  split; [|reflexivity].
  unfold QRNN.__init__; cbn [Bool.eqb negb QRNN.given].
  destruct bidirectional; cbn [rbind]; eexists; repeat split.
Qed.

End ConstructionFacts.

(** ** Further properties: what [QRNNLayer.forward] reads and writes *)

Section ForwardFacts.

Context {R : Type} `{SR : Scalar R} `{SM : Sampler R}.

Ltac run_sizes :=
  unfold QRNNLayer.read_input, try_except, bind, lift, ret, print;
  cbn [as_tensor py_iter unpack2 unpack3 unpack4 size map py_getitem0 getitem
       nth_error rbind py_int data length Nat.eqb].

(** Lines 55-63 never touch the layer, and what they return does not depend
    on it. *)
Lemma read_input_pure (X : pyobj R) (o : stdout) :
  exists o' r, forall s : QRNNLayer.t R, QRNNLayer.read_input X s o = (s, o', r).
Proof.
  destruct X as [|[x|v|m|a]|items].
  - do 2 eexists; intros s; run_sizes; reflexivity.
  - do 2 eexists; intros s; run_sizes; reflexivity.
  - destruct v as [|x0 [|x1 [|x2 [|x3 [|x4 v]]]]];
      do 2 eexists; intros s; run_sizes; reflexivity.
  - destruct m as [|r0 [|r1 [|r2 [|r3 [|r4 m]]]]];
      try (do 2 eexists; intros s; run_sizes; reflexivity).
    destruct r1 as [|y r1]; do 2 eexists; intros s; run_sizes; reflexivity.
  - do 2 eexists; intros s; run_sizes; reflexivity.
  - destruct items as [|x [|bs [|si [|ui [|z items]]]]];
      try (do 2 eexists; intros s; run_sizes; reflexivity).
    destruct (py_getitem0 bs) as [mb|e] eqn:Eb;
      [|do 2 eexists; intros s; run_sizes; rewrite Eb; reflexivity].
    destruct (py_int mb) as [[]|e] eqn:Ei;
      [|do 2 eexists; intros s; run_sizes; rewrite Eb; cbn [rbind]; rewrite Ei;
        reflexivity].
    destruct x as [|[x|v|m|a]|xs];
      do 2 eexists; intros s; run_sizes; rewrite Eb; cbn [rbind]; rewrite Ei;
      reflexivity.
Qed.

(** When the sizes are read successfully, the input was a rank-3 array,
    or the data taken from the fallback is a rank-2 array. *)
Lemma read_input_cases (X : pyobj R) (s s' : QRNNLayer.t R) (o o' : stdout)
  (x : tensor R) (seq_len batch_size : nat) :
  QRNNLayer.read_input X s o = (s', o', Ok (x, seq_len, batch_size)) ->
  (exists a, X = PTensor (T3 a) /\ x = T3 a /\ o' = o /\
             seq_len = length a /\ batch_size = length (hd [] a)) \/
  (exists d, x = T2 d /\ seq_len = length d /\ batch_size = length (hd [] d)).
Proof.
  destruct X as [|[x0|v|m|a]|items].
  - run_sizes; discriminate.
  - run_sizes; discriminate.
  - destruct v as [|x0 [|x1 [|x2 [|x3 [|x4 v]]]]]; run_sizes; discriminate.
  - destruct m as [|r0 [|r1 [|r2 [|r3 [|r4 m]]]]]; run_sizes; try discriminate.
    destruct r1 as [|y r1]; run_sizes; discriminate.
  - run_sizes; intros H; inversion H; subst; left; eauto 10.
  - destruct items as [|x0 [|bs [|si [|ui [|z items]]]]]; run_sizes; try discriminate.
    destruct (py_getitem0 bs) as [mb|e]; run_sizes; [|discriminate].
    destruct (py_int mb) as [[]|e]; run_sizes; [|discriminate].
    destruct x0 as [|[x0|v|m|a]|xs]; run_sizes; try discriminate.
    intros H; inversion H; subst; right; eauto.
Qed.

(** The only write of [forward] is the one of line 123. *)
Lemma forward_frame (self self' : QRNNLayer.t R) (X : pyobj R)
  (hidden : option (tensor R)) (o o' : stdout) (r : result (tensor R * tensor R)) :
  QRNNLayer.forward X hidden self o = (self', o', r) ->
  self' = self \/
  ((1 <? QRNNLayer.window self) && QRNNLayer.save_prev_x self = true /\
   exists a, X = PTensor (T3 a) /\
     self' = QRNNLayer.set_prevX self (Some (T3 (skipn (length a - 1) a)))).
Proof.
  unfold QRNNLayer.forward, bind; intros Hf.
  destruct (read_input_pure X o) as (o1 & r1 & Hp).
  pose proof (Hp self) as Hr; rewrite Hr in Hf.
  destruct r1 as [[[x sl] bs]|e]; [|inversion Hf; auto].
  unfold get, lift, ret, put in Hf.
  destruct (QRNNLayer.build_source self x); [|inversion Hf; auto].
  destruct (QRNNLayer.gates self a sl bs) as [[[Z F] Og]|]; [|inversion Hf; auto].
  destruct (QRNNLayer.apply_zoneout self F); [|inversion Hf; auto].
  destruct (ForgetMult a0 Z hidden (QRNNLayer.use_cuda self)) as [C|];
    [|inversion Hf; auto].
  destruct (QRNNLayer.apply_output_gate self Og C); [|inversion Hf; auto].
  destruct ((1 <? QRNNLayer.window self) && QRNNLayer.save_prev_x self) eqn:Hc.
  - destruct (read_input_cases _ _ _ Hr) as [(b & -> & -> & _)|(d & -> & _)].
    + cbn [slice_last] in Hf.
      destruct (slice_last C); inversion Hf; right; eauto.
    + cbn [slice_last] in Hf; inversion Hf; auto.
  - destruct (slice_last C); inversion Hf; auto.
Qed.

(** X5. Whatever the input and whether the call returns or raises,
    [forward] leaves every attribute of the layer as it was, except that a
    layer with window 2 and [save_prev_x], called on a rank-3 array, may get
    the last time step of that array as its new [prevX]. *)
Theorem forward_writes_only_cache (self self' : QRNNLayer.t R) (X : pyobj R)
  (hidden : option (tensor R)) (o o' : stdout) (r : result (tensor R * tensor R)) :
  QRNNLayer.forward X hidden self o = (self', o', r) ->
  self' = self \/
  ((1 <? QRNNLayer.window self) && QRNNLayer.save_prev_x self = true /\
   exists a, X = PTensor (T3 a) /\
     self' = QRNNLayer.set_prevX self (Some (T3 (skipn (length a - 1) a)))).
Proof. apply forward_frame. Qed.

(** X6. A layer with window 1 neither reads nor writes its cache: the call
    returns the same, prints the same and leaves the layer as it was,
    whatever [prevX] holds. *)
Theorem window1_ignores_cache (self : QRNNLayer.t R) (p : option (tensor R))
  (X : pyobj R) (hidden : option (tensor R)) (o : stdout) :
  QRNNLayer.window self = 1 ->
  exists o' r,
    QRNNLayer.forward X hidden self o = (self, o', r) /\
    QRNNLayer.forward X hidden (QRNNLayer.set_prevX self p) o =
      (QRNNLayer.set_prevX self p, o', r).
Proof.
  intros Hw; destruct (read_input_pure X o) as (o1 & r1 & Hp).
  unfold QRNNLayer.forward, bind; rewrite !Hp.
  destruct r1 as [[[x sl] bs]|e]; [|do 2 eexists; split; reflexivity].
  unfold get, lift, ret.
  rewrite !build_source_window1 by (cbn; exact Hw).
  change (QRNNLayer.gates (QRNNLayer.set_prevX self p) x sl bs)
    with (QRNNLayer.gates self x sl bs).
  destruct (QRNNLayer.gates self x sl bs) as [[[Z F] Og]|]; [|do 2 eexists; split; reflexivity].
  change (QRNNLayer.apply_zoneout (QRNNLayer.set_prevX self p) F)
    with (QRNNLayer.apply_zoneout self F).
  destruct (QRNNLayer.apply_zoneout self F) as [F'|]; [|do 2 eexists; split; reflexivity].
  change (QRNNLayer.use_cuda (QRNNLayer.set_prevX self p))
    with (QRNNLayer.use_cuda self).
  destruct (ForgetMult F' Z hidden (QRNNLayer.use_cuda self)) as [C|]; [|do 2 eexists; split; reflexivity].
  change (QRNNLayer.apply_output_gate (QRNNLayer.set_prevX self p) Og C)
    with (QRNNLayer.apply_output_gate self Og C).
  destruct (QRNNLayer.apply_output_gate self Og C) as [H|]; [|do 2 eexists; split; reflexivity].
  change (QRNNLayer.window (QRNNLayer.set_prevX self p)) with (QRNNLayer.window self).
  rewrite Hw; cbn [Nat.ltb Nat.leb andb].
  destruct (slice_last C); do 2 eexists; split; reflexivity.
Qed.

(** [forward] fails with the layer untouched when the windowed source
    cannot be built or has another width than the projection takes. *)
Lemma forward_source_raises (self : QRNNLayer.t R) (T B D : nat)
  (a : list (list (list R))) (hidden : option (tensor R)) (o : stdout) :
  shape3 T B D a -> 1 <= T -> 1 <= B ->
  QRNNLayer.build_source self (T3 a) = Raise RuntimeError \/
  (exists src W,
     QRNNLayer.build_source self (T3 a) = Ok (T3 src) /\ shape3 T B W src /\
     W <> in_features (QRNNLayer.linear self)) ->
  QRNNLayer.forward (PTensor (T3 a)) hidden self o = (self, o, Raise RuntimeError).
Proof.
  intros Ha HT HB Hsrc.
  unfold QRNNLayer.forward, QRNNLayer.read_input, try_except, bind, lift, ret, get.
  cbn [as_tensor]; rewrite (shape3_size Ha HT HB); cbn [unpack3].
  destruct Hsrc as [-> | (src & W & -> & Hs & Hne)]; [reflexivity|].
  unfold QRNNLayer.gates, linear_forward.
  rewrite (shape3_size Hs HT HB); cbn [last].
  destruct (Nat.eqb_spec W (in_features (QRNNLayer.linear self)));
    [contradiction|reflexivity].
Qed.

Lemma list_eqb_tail (B D D' : nat) : D <> D' -> list_eqb [B; D] [B; D'] = false.
Proof.
  intros Hne; unfold list_eqb.
  destruct (list_eq_dec Nat.eq_dec [B; D] [B; D']) as [E|E]; [|reflexivity].
  inversion E; contradiction.
Qed.

(** A rank-3 input of another feature width than the layer's is refused,
    whatever the cache holds. *)
Lemma width_mismatch_raises (self : QRNNLayer.t R) (T B D : nat)
  (a : list (list (list R))) (hidden : option (tensor R)) (o : stdout) :
  layer_ok self -> shape3 T B D a -> 1 <= T -> 1 <= B ->
  prevX_ok B (QRNNLayer.input_size self) (QRNNLayer.prevX self) ->
  D <> QRNNLayer.input_size self ->
  QRNNLayer.forward (PTensor (T3 a)) hidden self o = (self, o, Raise RuntimeError).
Proof.
  intros (Hw & _ & Hin & _) Ha HT HB Hp Hne.
  apply (forward_source_raises self hidden o Ha HT HB).
  destruct Hw as [Hw | Hw].
  { right; exists a, D; rewrite (build_source_window1 _ _ Hw), Hin, Hw.
    split; [reflexivity|]; split; [exact Ha|lia]. }
  destruct (QRNNLayer.prevX self) as [p|] eqn:Ep.
  2:{ right.
      assert (Hp' : prevX_ok B D (QRNNLayer.prevX self)) by (rewrite Ep; exact I).
      destruct (build_source_window2 _ Hw Ha HT HB Hp') as [Hsrc Hs].
      do 2 eexists; split; [exact Hsrc|]; split; [exact Hs|].
      rewrite Hin, Hw; lia. }
  destruct p as [| | |[|x [|y l]]]; simpl in Hp; try contradiction.
  assert (Hx : shape3 1 B (QRNNLayer.input_size self) [x])
    by (split; [reflexivity|constructor; auto]).
  unfold QRNNLayer.build_source, QRNNLayer.shifted_parts.
  rewrite Hw, Ep; cbn [Nat.eqb rbind len].
  destruct Ha as [Hla Hfa].
  rewrite Hla.
  destruct (Nat.ltb_spec 1 T) as [Hlt|Hge].
  - left; cbn [rbind slice_but_last app cat0 cat0_onto].
    assert (Hf : shape3 (T - 1) B D (firstn (T - 1) a))
      by (apply firstn_shape3 with (T := T); [split; auto|lia]).
    rewrite Hla, (shape3_size Hx (le_n 1) HB), (shape3_size Hf) by lia.
    cbn [tl]; rewrite list_eqb_tail by auto; reflexivity.
  - right; cbn [rbind cat0 cat0_onto].
    assert (HT1 : T = 1) by lia; rewrite HT1 in *.
    assert (Ha1 : shape3 1 B D a) by (split; auto).
    rewrite (cat_last_shape3 Ha1 Hx (le_n 1) HB).
    do 2 eexists; split; [reflexivity|]; split; [exact (app_shape3 Ha1 Hx)|].
    rewrite Hin, Hw; lia.
Qed.

(** X7. A rank-3 input whose feature width is not the one the layer was
    built for is refused: [forward] raises [RuntimeError], from the
    projection or, when a cached step of the layer's own width meets a
    longer input, from the concatenation with it; and the layer, cache
    included, stays as it was. *)
Theorem feature_width_mismatch (self : QRNNLayer.t R) (T B D : nat)
  (a : list (list (list R))) (hidden : option (tensor R)) (o : stdout) :
  layer_ok self -> shape3 T B D a -> 1 <= T -> 1 <= B ->
  prevX_ok B (QRNNLayer.input_size self) (QRNNLayer.prevX self) ->
  D <> QRNNLayer.input_size self ->
  QRNNLayer.forward (PTensor (T3 a)) hidden self o = (self, o, Raise RuntimeError).
Proof. apply width_mismatch_raises. Qed.

End ForwardFacts.

(** ** Further properties: packed input, continuation, invariants *)

Section CacheFacts.

Context {R : Type} `{SR : Scalar R} `{SM : Sampler R}.

Ltac run_packed :=
  unfold QRNNLayer.read_input, try_except, bind, lift, ret, print, get;
  cbn [as_tensor py_iter unpack2 unpack3 unpack4 size map rbind].

(** X8. A packed sequence whose data has two or more features per row is
    never processed: the size of the data is printed, then a layer with
    window 1 raises [RuntimeError] (in the projection or in the view of its
    result) and a layer with window 2 raises [IndexError] (three indices on
    a rank-2 array); the layer stays as it was. *)
Theorem packed_sequence_refused (self : QRNNLayer.t R) (N F B D : nat)
  (d : list (list R)) (bs si ui mb : pyobj R) (hidden : option (tensor R))
  (o : stdout) :
  layer_ok self -> 1 <= QRNNLayer.hidden_size self ->
  shape2 N F d -> 1 <= N -> 2 <= F ->
  prevX_ok B D (QRNNLayer.prevX self) ->
  py_getitem0 bs = Ok mb -> py_int mb = Ok tt ->
  QRNNLayer.forward (PTuple [PTensor (T2 d); bs; si; ui]) hidden self o =
    (self, o ++ [[N; F]],
     Raise (if QRNNLayer.window self =? 1 then RuntimeError else IndexError)).
Proof.
  intros (Hw & Hl & Hin & Hout) Hh Hd HN HF Hp Hb Hi.
  pose proof (shape2_size Hd HN) as Hsz.
  unfold QRNNLayer.forward; run_packed.
  rewrite Hb; cbn [rbind]; rewrite Hi; cbn [size] in Hsz.
  injection Hsz as Hd1 Hd2; rewrite Hd1, Hd2.
  destruct Hw as [Hw | Hw].
  - rewrite (build_source_window1 _ _ Hw), Hw; cbn [Nat.eqb].
    unfold QRNNLayer.gates, linear_forward; cbn [size].
    rewrite Hd1, Hd2; cbn [last].
    destruct (Nat.eqb_spec F (in_features (QRNNLayer.linear self))); [|reflexivity].
    cbn [rbind]; unfold view3; cbn [data].
    assert (Hlen : length (concat (map (linear_row (QRNNLayer.linear self)) d)) =
                   N * out_features (QRNNLayer.linear self)).
    { rewrite (@concat_length_const _ (out_features (QRNNLayer.linear self))).
      - rewrite length_map; destruct Hd as [-> _]; reflexivity.
      - apply Forall_map, Forall_forall; intros v _.
        now apply linear_row_length. }
    rewrite Hlen, Hout.
    set (h := QRNNLayer.hidden_size self) in *.
    destruct (QRNNLayer.output_gate self).
    + destruct (Nat.eqb_spec (N * (3 * h)) (N * F * (3 * h))); [nia|reflexivity].
    + destruct (Nat.eqb_spec (N * (2 * h)) (N * F * (2 * h))); [nia|reflexivity].
  - unfold QRNNLayer.build_source, QRNNLayer.shifted_parts; rewrite Hw; cbn [Nat.eqb].
    destruct (QRNNLayer.prevX self) as [[| | |[|x [|y l]]]|];
      simpl in Hp; try contradiction; [|reflexivity].
    cbn [rbind len]; destruct Hd as [-> _].
    destruct (1 <? N); reflexivity.
Qed.

Lemma map2_app {A B' C : Type} (f : A -> B' -> C) (l1 l2 : list A) (l1' l2' : list B') :
  length l1 = length l1' ->
  map2 f (l1 ++ l2) (l1' ++ l2') = map2 f l1 l1' ++ map2 f l2 l2'.
Proof.
  revert l1'; induction l1 as [|x l1 IH]; intros [|y l1'] Hl; simpl in *;
    try discriminate; auto.
  now rewrite IH by lia.
Qed.

Lemma firstn_last (a : list (list (list R))) :
  1 <= length a -> firstn (length a - 1) a ++ [last a []] = a.
Proof.
  intros Hl; rewrite <- (skipn_last a []) by assumption; apply firstn_skipn.
Qed.

(** X10. Continuation through the cache.  With window 2 and [save_prev_x],
    the windowed features of a sequence given in two calls, the second one
    made on the layer as the first call left it, are those of the whole
    sequence given in one call. *)
Theorem cache_continues_window (self : QRNNLayer.t R) (T1 T2 B D : nat)
  (a1 a2 : list (list (list R))) :
  QRNNLayer.window self = 2 -> QRNNLayer.save_prev_x self = true ->
  shape3 T1 B D a1 -> shape3 T2 B D a2 -> 1 <= T1 -> 1 <= T2 -> 1 <= B ->
  prevX_ok B D (QRNNLayer.prevX self) ->
  exists s1 s2,
    QRNNLayer.build_source self (T3 a1) = Ok (T3 s1) /\
    QRNNLayer.build_source (cache_after self a1) (T3 a2) = Ok (T3 s2) /\
    length s1 = T1 /\ length s2 = T2 /\
    QRNNLayer.build_source self (T3 (a1 ++ a2)) = Ok (T3 (s1 ++ s2)).
Proof.
  intros Hw Hs Ha1 Ha2 HT1 HT2 HB Hp.
  assert (Ha : shape3 (T1 + T2) B D (a1 ++ a2)).
  { destruct Ha1 as [Hl1 Hf1], Ha2 as [Hl2 Hf2]; split;
      [rewrite length_app; lia|now apply Forall_app]. }
  assert (Hc : cache_after self a1 = QRNNLayer.set_prevX self (Some (T3 [last a1 []]))).
  { unfold cache_after; now rewrite Hw, Hs. }
  assert (Hp' : prevX_ok B D (QRNNLayer.prevX (cache_after self a1))).
  { rewrite Hc; simpl.
    destruct (last_shape3 Ha1 HT1) as [_ Hf]; now inversion Hf. }
  destruct (build_source_window2 _ Hw Ha1 HT1 HB Hp) as [E1 S1].
  destruct (build_source_window2 (cache_after self a1)
              (eq_trans (f_equal QRNNLayer.window Hc) Hw) Ha2 HT2 HB Hp') as [E2 S2].
  destruct (build_source_window2 _ Hw Ha (Nat.le_trans _ _ _ HT1 (Nat.le_add_r T1 T2))
              HB Hp) as [E S].
  do 2 eexists; split; [exact E1|]; split; [exact E2|].
  split; [now destruct S1|]; split; [now destruct S2|].
  rewrite E; do 2 f_equal.
  rewrite Hc; cbn [QRNNLayer.prevX QRNNLayer.set_prevX].
  destruct Ha1 as [Hl1 _], Ha2 as [Hl2 _].
  assert (Hsh : shifted (QRNNLayer.prevX self) (a1 ++ a2) =
                shifted (QRNNLayer.prevX self) a1 ++
                shifted (Some (T3 [last a1 []])) a2).
  { unfold shifted.
    assert (Hhd : hd [] (a1 ++ a2) = hd [] a1)
      by (destruct a1; [simpl in Hl1; lia|reflexivity]).
    rewrite Hhd, length_app.
    replace (length a1 + length a2 - 1) with (length a1 + (length a2 - 1)) by lia.
    rewrite firstn_app_2.
    assert (Eapp : a1 ++ firstn (length a2 - 1) a2 =
                firstn (length a1 - 1) a1 ++ last a1 [] :: firstn (length a2 - 1) a2).
    { rewrite <- (firstn_last a1) at 1 by lia; now rewrite <- app_assoc. }
    simpl; now rewrite Eapp. }
  rewrite Hsh; apply map2_app.
  unfold shifted; simpl; rewrite length_firstn; lia.
Qed.


End CacheFacts.

(** ** Further properties: the gates *)

Section GateFacts.

Context {R : Type} `{SR : Scalar R} `{SM : Sampler R}.

(** Lines 84-94 on a source of the extents the layer was built for, with
    the arrays written out. *)
Lemma gates_explicit (self : QRNNLayer.t R) (T B : nat) (src : list (list (list R))) :
  layer_ok self ->
  shape3 T B (QRNNLayer.window self * QRNNLayer.input_size self) src ->
  1 <= T -> 1 <= B ->
  QRNNLayer.gates self (T3 src) T B =
    Ok (T3 (map (map (map tanh))
              (map (map (fun v => firstn (QRNNLayer.hidden_size self)
                                    (skipn (0 * QRNNLayer.hidden_size self) v)))
                 (map (map (linear_row (QRNNLayer.linear self))) src))),
        T3 (map (map (map sigmoid))
              (map (map (fun v => firstn (QRNNLayer.hidden_size self)
                                    (skipn (1 * QRNNLayer.hidden_size self) v)))
                 (map (map (linear_row (QRNNLayer.linear self))) src))),
        if QRNNLayer.output_gate self
        then Some (T3 (map (map (fun v => firstn (QRNNLayer.hidden_size self)
                                    (skipn (2 * QRNNLayer.hidden_size self) v)))
                         (map (map (linear_row (QRNNLayer.linear self))) src)))
        else None) /\
  shape3 T B (out_features (QRNNLayer.linear self))
    (map (map (linear_row (QRNNLayer.linear self))) src).
Proof.
  intros (Hw & Hl & Hin & Hout) Hsrc HT HB.
  destruct (linear_forward_shape3 Hsrc HT HB Hin Hl) as [HY HYs].
  split; [|exact HYs].
  unfold QRNNLayer.gates; rewrite HY; cbn [rbind].
  rewrite Hout in HYs.
  set (h := QRNNLayer.hidden_size self) in *.
  set (Y := map (map (linear_row (QRNNLayer.linear self))) src) in *.
  destruct (QRNNLayer.output_gate self).
  - rewrite (view3_same HYs); cbn [rbind].
    rewrite (chunk2_pieces h HYs HT HB) by lia; reflexivity.
  - rewrite (view3_same HYs); cbn [rbind].
    rewrite (chunk2_pieces h HYs HT HB) by lia; reflexivity.
Qed.

Lemma row_map (g : list R -> list R) (T B D : nat) (a : list (list (list R)))
  (t b : nat) :
  shape3 T B D a -> t < T -> b < B ->
  nth b (nth t (map (map g) a) []) [] = g (nth b (nth t a []) []).
Proof.
  intros Ha Ht Hb.
  pose proof (shape3_nth Ha Ht) as [Hm _]; destruct Ha as [Hla _].
  rewrite (nth_indep _ [] (map g [])) by (rewrite length_map; lia).
  rewrite map_nth.
  rewrite (nth_indep _ [] (g [])) by (rewrite length_map; lia).
  now rewrite map_nth.
Qed.

Lemma linear_row_nth (l : Linear R) (x : list R) (j : nat) :
  linear_ok l -> j < out_features l ->
  nth j (linear_row l x) zero = add (dot x (nth j (weight l) [])) (nth j (bias l) zero).
Proof.
  intros [Hw Hb] Hj; unfold linear_row.
  now rewrite (map2_nth _ _ _ zero [] zero) by lia.
Qed.

(** X9. The layout of the projection.  For a source of the extents the
    layer was built for, with y = x W^T + b the projection of the features
    x of one time step and batch row: Z is tanh of the first [hidden_size]
    entries of y, F is sigmoid of the next [hidden_size] entries, and with
    an output gate O is the last [hidden_size] entries, not yet
    activated. *)
Theorem gate_layout (self : QRNNLayer.t R) (T B : nat) (src : list (list (list R))) :
  layer_ok self ->
  shape3 T B (QRNNLayer.window self * QRNNLayer.input_size self) src ->
  1 <= T -> 1 <= B ->
  exists Z F Og,
    QRNNLayer.gates self (T3 src) T B = Ok (T3 Z, T3 F, Og) /\
    (forall t b d, t < T -> b < B -> d < QRNNLayer.hidden_size self ->
       at3 Z t b d =
         tanh (add (dot (nth b (nth t src []) [])
                        (nth d (weight (QRNNLayer.linear self)) []))
                   (nth d (bias (QRNNLayer.linear self)) zero)) /\
       at3 F t b d =
         sigmoid (add (dot (nth b (nth t src []) [])
                           (nth (QRNNLayer.hidden_size self + d)
                              (weight (QRNNLayer.linear self)) []))
                      (nth (QRNNLayer.hidden_size self + d)
                         (bias (QRNNLayer.linear self)) zero))) /\
    (QRNNLayer.output_gate self = true ->
       exists Oa, Og = Some (T3 Oa) /\
         forall t b d, t < T -> b < B -> d < QRNNLayer.hidden_size self ->
           at3 Oa t b d =
             add (dot (nth b (nth t src []) [])
                      (nth (2 * QRNNLayer.hidden_size self + d)
                         (weight (QRNNLayer.linear self)) []))
                 (nth (2 * QRNNLayer.hidden_size self + d)
                    (bias (QRNNLayer.linear self)) zero)) /\
    (QRNNLayer.output_gate self = false -> Og = None).
Proof.
  intros Hok Hsrc HT HB.
  destruct (gates_explicit Hok Hsrc HT HB) as [Hg HYs].
  destruct Hok as (Hw & Hl & Hin & Hout).
  set (h := QRNNLayer.hidden_size self) in *.
  set (l := QRNNLayer.linear self) in *.
  set (Y := map (map (linear_row l)) src) in *.
  assert (Hk : 2 * h <= out_features l)
    by (rewrite Hout; destruct (QRNNLayer.output_gate self); lia).
  assert (Hpiece : forall i t b d, i * h + h <= out_features l ->
            t < T -> b < B -> d < h ->
            at3 (map (map (fun v => firstn h (skipn (i * h) v))) Y) t b d =
            add (dot (nth b (nth t src []) []) (nth (i * h + d) (weight l) []))
                (nth (i * h + d) (bias l) zero)).
  { intros i t b d Hi Ht Hb Hd; unfold at3, at2.
    rewrite (row_map (fun v => firstn h (skipn (i * h) v)) HYs Ht Hb).
    rewrite nth_firstn; destruct (Nat.ltb_spec d h); [|lia].
    rewrite nth_skipn; unfold Y.
    rewrite (row_map (linear_row l) Hsrc Ht Hb).
    apply linear_row_nth; auto; lia. }
  do 3 eexists; split; [exact Hg|]; split; [|split].
  - intros t b d Ht Hb Hd; split.
    + rewrite (at3_map tanh (piece_shape3 h 0 HYs ltac:(lia)) Ht Hb Hd).
      now rewrite Hpiece by (auto; lia).
    + rewrite (at3_map sigmoid (piece_shape3 h 1 HYs ltac:(lia)) Ht Hb Hd).
      rewrite Hpiece by (auto; lia).
      now rewrite Nat.mul_1_l.
  - intros Hog; fold h in Hout; rewrite Hog in Hout |- *.
    eexists; split; [reflexivity|].
    intros t b d Ht Hb Hd; apply Hpiece; auto; lia.
  - intros Hog; now rewrite Hog.
Qed.

(** X12. The gates are computed time step by time step: those of a source
    that is two sources one after the other are the gates of the first
    followed by the gates of the second. *)
Theorem gates_are_stepwise (self : QRNNLayer.t R) (T1 T2 B : nat)
  (s1 s2 : list (list (list R))) :
  layer_ok self ->
  shape3 T1 B (QRNNLayer.window self * QRNNLayer.input_size self) s1 ->
  shape3 T2 B (QRNNLayer.window self * QRNNLayer.input_size self) s2 ->
  1 <= T1 -> 1 <= T2 -> 1 <= B ->
  exists Z1 F1 Z2 F2 O1 O2,
    QRNNLayer.gates self (T3 s1) T1 B = Ok (T3 Z1, T3 F1, option_map (@T3 R) O1) /\
    QRNNLayer.gates self (T3 s2) T2 B = Ok (T3 Z2, T3 F2, option_map (@T3 R) O2) /\
    length Z1 = T1 /\ length F1 = T1 /\
    QRNNLayer.gates self (T3 (s1 ++ s2)) (T1 + T2) B =
      Ok (T3 (Z1 ++ Z2), T3 (F1 ++ F2),
          match O1, O2 with
          | Some o1, Some o2 => Some (T3 (o1 ++ o2))
          | _, _ => None
          end).
Proof.
  intros Hok H1 H2 HT1 HT2 HB.
  assert (H12 : shape3 (T1 + T2) B
                  (QRNNLayer.window self * QRNNLayer.input_size self) (s1 ++ s2)).
  { destruct H1 as [Hl1 Hf1], H2 as [Hl2 Hf2]; split;
      [rewrite length_app; lia|now apply Forall_app]. }
  destruct (gates_explicit Hok H1 HT1 HB) as [E1 _].
  destruct (gates_explicit Hok H2 HT2 HB) as [E2 _].
  destruct (gates_explicit Hok H12 (Nat.le_trans _ _ _ HT1 (Nat.le_add_r T1 T2)) HB)
    as [E12 _].
  rewrite !map_app in E12.
  destruct H1 as [Hl1 _].
  destruct (QRNNLayer.output_gate self).
  - eexists _, _, _, _, (Some _), (Some _).
    split; [exact E1|]; split; [exact E2|].
    split; [now rewrite !length_map|]; split; [now rewrite !length_map|exact E12].
  - eexists _, _, _, _, None, None.
    split; [exact E1|]; split; [exact E2|].
    split; [now rewrite !length_map|]; split; [now rewrite !length_map|exact E12].
Qed.

End GateFacts.

(** ** Further properties: the bidirectional layer *)

Section BiDirFacts.

Context {R : Type} `{SR : Scalar R} `{SM : Sampler R}.




Lemma set_forward_same (self : BiDirQRNNLayer.t R) :
  BiDirQRNNLayer.set_forward_qrnn self (BiDirQRNNLayer.forward_qrnn self) = self.
Proof. now destruct self. Qed.

(** X14. The bidirectional layer accepts tensors only: for any other
    input, a packed sequence included, [forward] raises and the layer stays
    as it was.  When the forward direction has accepted the input, the
    error is the [TypeError] of [torch.flip]. *)
Theorem bidirectional_rejects_non_tensors (self : BiDirQRNNLayer.t R) (X : pyobj R)
  (hidden : option (tensor R)) (o : stdout) :
  (forall t, X <> PTensor t) ->
  (exists e o', BiDirQRNNLayer.forward X hidden self o = (self, o', Raise e)) /\
  (forall f' o' out h_n,
     QRNNLayer.forward X hidden (BiDirQRNNLayer.forward_qrnn self) o =
       (f', o', Ok (out, h_n)) ->
     BiDirQRNNLayer.forward X hidden self o = (self, o', Raise TypeError)).
Proof.
  intros HX.
  assert (Hflip : py_flip0 X = Raise TypeError).
  { destruct X as [|t|items]; auto; exfalso; now apply (HX t). }
  assert (Hrun : forall f' o' r,
            QRNNLayer.forward X hidden (BiDirQRNNLayer.forward_qrnn self) o = (f', o', r) ->
            BiDirQRNNLayer.forward X hidden self o =
              (self, o', match r with Ok _ => Raise TypeError | Raise e => Raise e end)).
  { intros f' o' r Hf.
    assert (Hsame : f' = BiDirQRNNLayer.forward_qrnn self).
    { pose proof Hf as Hf2; apply forward_frame in Hf2.
      destruct Hf2 as [E | (_ & a & E & _)]; auto.
      exfalso; now apply (HX (T3 a)). }
    subst f'.
    unfold BiDirQRNNLayer.forward, bind, zoom, lift.
    destruct hidden as [h|]; rewrite Hf, set_forward_same;
      destruct r as [[out h_n]|e]; try reflexivity; now rewrite Hflip. }
  split.
  - destruct (QRNNLayer.forward X hidden (BiDirQRNNLayer.forward_qrnn self) o)
      as [[f' o'] r] eqn:Hf.
    rewrite (Hrun _ _ _ eq_refl); destruct r; eauto.
  - intros f' o' out h_n Hf; now rewrite (Hrun _ _ _ Hf).
Qed.

End BiDirFacts.

(** ** Further properties: the stack *)

Section StackFacts.

Context {R : Type} `{SR : Scalar R} `{SM : Sampler R}.

Lemma reset_run (q : QRNN.t R) (o : stdout) :
  QRNN.reset q o =
    match for_each QRNN.layer_reset (QRNN.layers q) o with
    | (ls', o', Ok _) => (QRNN.set_layers q ls', o', Ok tt)
    | (ls', o', Raise e) => (QRNN.set_layers q ls', o', Raise e)
    end.
Proof.
  unfold QRNN.reset, bind, zoom, ret.
  now destruct (for_each QRNN.layer_reset (QRNN.layers q) o) as [[ls' o'] [u|e]].
Qed.

Lemma cleared_twice (l : QRNN.layer R) : unit_cleared (unit_cleared l) = unit_cleared l.
Proof. now destruct l. Qed.

Lemma cleared_uni (ls : list (QRNN.layer R)) :
  forallb is_uni ls = true ->
  forallb is_uni (map unit_cleared ls) = true /\
  Forall (fun c => c = None) (flat_map unit_caches (map unit_cleared ls)).
Proof.
  induction ls as [|[q|b] ls IH]; simpl; intros H; auto; [|discriminate].
  destruct (IH H); split; auto.
Qed.

(** X15. On a stack of plain [QRNNLayer] units [reset] succeeds: it empties
    the cache of every layer and changes nothing else, and a second [reset]
    changes nothing at all. *)
Theorem reset_clears_unidirectional_stack (q : QRNN.t R) (o : stdout) :
  forallb is_uni (QRNN.layers q) = true ->
  QRNN.reset q o = (QRNN.set_layers q (map unit_cleared (QRNN.layers q)), o, Ok tt) /\
  Forall (fun c => c = None)
    (caches (QRNN.set_layers q (map unit_cleared (QRNN.layers q)))) /\
  QRNN.reset (QRNN.set_layers q (map unit_cleared (QRNN.layers q))) o =
    (QRNN.set_layers q (map unit_cleared (QRNN.layers q)), o, Ok tt).
Proof.
  intros Hu; destruct (cleared_uni _ Hu) as [Hu' Hc].
  split; [|split].
  - now rewrite reset_run, (reset_each_uni _ o Hu).
  - exact Hc.
  - rewrite reset_run; cbn [QRNN.layers QRNN.set_layers].
    rewrite (reset_each_uni _ o Hu'), map_map.
    unfold QRNN.set_layers; cbn; do 3 f_equal.
    apply map_ext; intros l; apply cleared_twice.
Qed.

(** X16. [reset] works its way through the layers in order: on a stack
    whose first bidirectional unit comes after some plain layers, those
    layers are reset, then the call raises [AttributeError], and the
    bidirectional unit and every unit after it keep their caches. *)
Theorem reset_stops_at_bidirectional (q : QRNN.t R) (pre post : list (QRNN.layer R))
  (b : BiDirQRNNLayer.t R) (o : stdout) :
  QRNN.layers q = pre ++ QRNN.Bi b :: post ->
  forallb is_uni pre = true ->
  QRNN.reset q o =
    (QRNN.set_layers q (map unit_cleared pre ++ QRNN.Bi b :: post), o,
     Raise AttributeError).
Proof.
  intros Hl Hu; now rewrite reset_run, Hl, (reset_each_bi _ post b o Hu).
Qed.

Lemma set_prevX_twice (self : QRNNLayer.t R) (p p' : option (tensor R)) :
  QRNNLayer.set_prevX (QRNNLayer.set_prevX self p) p' = QRNNLayer.set_prevX self p'.
Proof. reflexivity. Qed.

(** One turn of the loop on a plain layer changes at most that layer's
    cache. *)
Lemma forward_step_uni (self : QRNN.t R) (i : nat) (input : pyobj R)
  (hidden : option (tensor R)) (nh : list (tensor R)) (q : QRNNLayer.t R)
  (o o' : stdout) (l' : QRNN.layer R) (r : result (pyobj R * list (tensor R))) :
  QRNN.forward_step self i input hidden nh (QRNN.Uni q) o = (l', o', r) ->
  is_uni l' = true /\ unit_cleared l' = unit_cleared (QRNN.Uni q).
Proof.
  unfold QRNN.forward_step, bind, lift, ret, QRNN.layer_forward.
  destruct (QRNN.hidden_for hidden i) as [hi|e]; [|intros H; inversion H; auto].
  destruct (QRNNLayer.forward input hi q o) as [[q' o1] r1] eqn:Hf.
  assert (Hq : QRNNLayer.set_prevX q' None = QRNNLayer.set_prevX q None).
  { apply forward_frame in Hf; destruct Hf as [-> | (_ & a & _ & ->)]; reflexivity. }
  destruct r1 as [[out hn]|e].
  - destruct (negb (is_zero (QRNN.dropout self)) && (i <? length (QRNN.layers self) - 1)).
    + destruct (F_dropout out (QRNN.dropout self) (QRNN.training self));
        intros H; inversion H; subst; simpl; now rewrite Hq.
    + intros H; inversion H; subst; simpl; now rewrite Hq.
  - intros H; inversion H; subst; simpl; now rewrite Hq.
Qed.

Lemma forward_loop_uni (self : QRNN.t R) (hidden : option (tensor R))
  (ls : list (QRNN.layer R)) :
  forallb is_uni ls = true ->
  forall i input nh o ls' o' r,
    QRNN.forward_loop self i input hidden nh ls o = (ls', o', r) ->
    forallb is_uni ls' = true /\ map unit_cleared ls' = map unit_cleared ls.
Proof.
  induction ls as [|[q|b] ls IH]; intros Hu i input nh o ls' o' r; simpl in Hu;
    [| |discriminate].
  - simpl; intros H; inversion H; auto.
  - cbn [QRNN.forward_loop].
    destruct (QRNN.forward_step self i input hidden nh (QRNN.Uni q) o)
      as [[l1 o1] r1] eqn:Hs.
    destruct (forward_step_uni _ _ _ _ _ _ _ Hs) as [Hl1 Hc1].
    destruct r1 as [[input' nh']|e].
    + destruct (QRNN.forward_loop self (S i) input' hidden nh' ls o1)
        as [[rest' o2] r2] eqn:Hloop.
      destruct (IH Hu _ _ _ _ _ _ _ Hloop) as [Hu' Hc'].
      intros H; inversion H; subst; simpl; rewrite Hl1, Hu', Hc1, Hc'; auto.
    + intros H; inversion H; subst; simpl; rewrite Hl1, Hu, Hc1; auto.
Qed.

(** X17. On a stack of plain layers, [reset] after [forward] gives the
    stack that [reset] alone gives, whatever the input was and whether
    [forward] returned or raised: nothing that [forward] writes survives
    a [reset]. *)
Theorem reset_undoes_forward (q q1 : QRNN.t R) (input : pyobj R)
  (hidden : option (tensor R)) (o o1 : stdout) (r : result (pyobj R * tensor R)) :
  forallb is_uni (QRNN.layers q) = true ->
  QRNN.forward input hidden q o = (q1, o1, r) ->
  QRNN.reset q1 o1 =
    (QRNN.set_layers q (map unit_cleared (QRNN.layers q)), o1, Ok tt).
Proof.
  intros Hu; unfold QRNN.forward, bind, get, zoom, lift, ret.
  destruct (QRNN.forward_loop q 0 input hidden [] (QRNN.layers q) o)
    as [[ls' o'] r'] eqn:Hloop.
  pose proof Hloop as Hloop2; apply (forward_loop_uni _ _ _ Hu) in Hloop2.
  destruct Hloop2 as [Hu' Hc].
  assert (Hq1 : forall r0, (QRNN.set_layers q ls', o', r0) = (q1, o1, r) ->
            QRNN.reset q1 o1 =
              (QRNN.set_layers q (map unit_cleared (QRNN.layers q)), o1, Ok tt)).
  { intros r0 H; inversion H; subst.
    rewrite reset_run; cbn [QRNN.layers QRNN.set_layers].
    rewrite (reset_each_uni _ o1 Hu'), Hc; reflexivity. }
  destruct r' as [[out nh]|e]; [|apply Hq1].
  destruct (QRNN.stack_hidden q nh); apply Hq1.
Qed.

(** X18. A stack without layers cannot run: [forward] raises the
    [ValueError] of [torch.cat] on the empty list of final hidden states,
    and nothing is printed or changed. *)
Theorem empty_stack_forward (q : QRNN.t R) (input : pyobj R)
  (hidden : option (tensor R)) (o : stdout) :
  QRNN.layers q = [] ->
  QRNN.forward input hidden q o = (q, o, Raise ValueError).
Proof.
  intros Hl; unfold QRNN.forward, bind, get, zoom, lift, ret; rewrite Hl.
  cbn [QRNN.forward_loop QRNN.stack_hidden cat0 rbind].
  destruct q; simpl in Hl; subst; reflexivity.
Qed.

End StackFacts.

(** ** Further properties: the stack across calls *)

Section StackInvariants.

Context {R : Type} `{SR : Scalar R} `{SM : Sampler R}.










End StackInvariants.

(** ** Further properties: a stack built with hidden size 0 *)

Section ZeroHidden.

Context {R : Type} `{SR : Scalar R} `{SM : Sampler R}.



End ZeroHidden.

(** ** The further properties on concrete inputs *)

Lemma demo_narrow_ok : layer_ok Demo.narrow.
Proof. repeat split; first [reflexivity | left; reflexivity]. Qed.

Lemma demo_X1_shape : shape3 1 2 2 Demo.X1.
Proof. repeat constructor. Qed.

Lemma demo_X3w_shape : shape3 1 2 3 Demo.X3w.
Proof. repeat constructor. Qed.

Lemma demo_S4_shape : shape3 1 2 4 Demo.S4.
Proof. repeat constructor. Qed.

Lemma demo_packed2_shape : shape2 2 2 [[1; 2]; [3; 4]]%Z.
Proof. repeat constructor. Qed.

Lemma demo_packed_no_tensor : forall t : tensor Z, Demo.packed <> PTensor t.
Proof. intros t; discriminate. Qed.

Lemma projection_extents_witness :
  (2 = 1 \/ 2 = 2) /\
  exists l,
    QRNNLayer.__init__ Demo.theta 2 (Some 3) true 0%Z 2 true false = Ok l /\
    in_features (QRNNLayer.linear l) = 2 * 2 /\
    out_features (QRNNLayer.linear l) = 3 * 3.
Proof.
  split; [right; reflexivity|].
  destruct (@projection_extents Z Demo.Z_Scalar Demo.theta 2 2 true 0%Z 2 true false
              (or_intror eq_refl)) as (l & Hl & _ & Hi & Ho & _).
  exists l; exact (conj Hl (conj Hi Ho)).
Defined.

Lemma forward_writes_only_cache_witness :
  exists self' o' r,
    QRNNLayer.forward (PTensor (T3 Demo.X0)) None Demo.layer [] = (self', o', r) /\
    (self' = Demo.layer \/
     ((1 <? QRNNLayer.window Demo.layer) && QRNNLayer.save_prev_x Demo.layer = true /\
      exists a, PTensor (T3 Demo.X0) = PTensor (T3 a) /\
        self' = QRNNLayer.set_prevX Demo.layer (Some (T3 (skipn (length a - 1) a))))).
Proof.
  destruct (QRNNLayer.forward (PTensor (T3 Demo.X0)) None Demo.layer [])
    as [[s o'] r] eqn:Hf.
  exists s, o', r; split; [reflexivity|].
  exact (forward_writes_only_cache Demo.layer (PTensor (T3 Demo.X0)) None [] Hf).
Defined.

Lemma window1_ignores_cache_witness :
  QRNNLayer.window Demo.narrow = 1 /\
  exists o' r,
    QRNNLayer.forward Demo.packed None Demo.narrow [] = (Demo.narrow, o', r) /\
    QRNNLayer.forward Demo.packed None
      (QRNNLayer.set_prevX Demo.narrow (Some (T3 Demo.X1))) [] =
      (QRNNLayer.set_prevX Demo.narrow (Some (T3 Demo.X1)), o', r).
Proof.
  split; [reflexivity|].
  exact (window1_ignores_cache Demo.narrow (Some (T3 Demo.X1)) Demo.packed None []
           eq_refl).
Defined.

Lemma demo_cached_ok : layer_ok (cache_after Demo.layer Demo.X0).
Proof. repeat split; first [reflexivity | right; reflexivity]. Qed.

Lemma demo_cached_prevX :
  prevX_ok 2 2 (QRNNLayer.prevX (cache_after Demo.layer Demo.X0)).
Proof. repeat constructor. Qed.

Lemma three_is_not_two : 3 <> 2.
Proof. discriminate. Qed.

Lemma feature_width_mismatch_witness :
  (layer_ok (cache_after Demo.layer Demo.X0) /\ shape3 1 2 3 Demo.X3w /\
   QRNNLayer.prevX (cache_after Demo.layer Demo.X0) = Some (T3 [[[-1; 0]; [2; -3]]]%Z)) /\
  QRNNLayer.forward (PTensor (T3 Demo.X3w)) None (cache_after Demo.layer Demo.X0) [] =
    (cache_after Demo.layer Demo.X0, [], Raise RuntimeError).
Proof.
  split; [exact (conj demo_cached_ok (conj demo_X3w_shape eq_refl))|].
  exact (feature_width_mismatch None [] demo_cached_ok demo_X3w_shape
           (le_n 1) one_le_2 demo_cached_prevX three_is_not_two).
Defined.

Lemma packed_sequence_refused_witness :
  (layer_ok Demo.narrow /\ shape2 2 2 [[1; 2]; [3; 4]]%Z) /\
  QRNNLayer.forward Demo.packed2 None Demo.narrow [] =
    (Demo.narrow, [[2; 2]], Raise RuntimeError).
Proof.
  split; [exact (conj demo_narrow_ok demo_packed2_shape)|].
  exact (@packed_sequence_refused Z _ _ Demo.narrow 2 2 2 2 [[1; 2]; [3; 4]]%Z
           (PTensor (T1 [2%Z])) PNone PNone (PTensor (T0 2%Z)) None []
           demo_narrow_ok one_le_2 demo_packed2_shape one_le_2 (le_n 2) I
           eq_refl eq_refl).
Defined.

Lemma gate_layout_witness :
  (layer_ok Demo.layer /\ shape3 1 2 4 Demo.S4) /\
  exists Z F Og, QRNNLayer.gates Demo.layer (T3 Demo.S4) 1 2 = Ok (T3 Z, T3 F, Og).
Proof.
  split; [exact (conj demo_layer_ok demo_S4_shape)|].
  destruct (gate_layout demo_layer_ok demo_S4_shape (le_n 1) one_le_2)
    as (Z & F & Og & Hg & _).
  exists Z, F, Og; exact Hg.
Defined.

Lemma cache_continues_window_witness :
  (shape3 3 2 2 Demo.X0 /\ shape3 1 2 2 Demo.X1) /\
  exists s1 s2,
    QRNNLayer.build_source (cache_after Demo.layer Demo.X0) (T3 Demo.X1) = Ok (T3 s2) /\
    QRNNLayer.build_source Demo.layer (T3 (Demo.X0 ++ Demo.X1)) = Ok (T3 (s1 ++ s2)).
Proof.
  split; [exact (conj demo_X0_shape demo_X1_shape)|].
  destruct (cache_continues_window Demo.layer eq_refl eq_refl demo_X0_shape
              demo_X1_shape one_le_3 (le_n 1) one_le_2 I)
    as (s1 & s2 & _ & H2 & _ & _ & H12).
  exists s1, s2; exact (conj H2 H12).
Defined.


Lemma gates_are_stepwise_witness :
  (layer_ok Demo.layer /\ shape3 1 2 4 Demo.S4) /\
  exists Z F Og,
    QRNNLayer.gates Demo.layer (T3 (Demo.S4 ++ Demo.S4)) (1 + 1) 2 = Ok (T3 Z, T3 F, Og).
Proof.
  split; [exact (conj demo_layer_ok demo_S4_shape)|].
  destruct (gates_are_stepwise demo_layer_ok demo_S4_shape demo_S4_shape
              (le_n 1) (le_n 1) one_le_2)
    as (Z1 & F1 & Z2 & F2 & O1 & O2 & _ & _ & _ & _ & H12).
  do 3 eexists; exact H12.
Defined.


Lemma bidirectional_rejects_non_tensors_witness :
  (forall t : tensor Z, Demo.packed <> PTensor t) /\
  exists e o',
    BiDirQRNNLayer.forward Demo.packed None Demo.bidir [] = (Demo.bidir, o', Raise e).
Proof.
  split; [exact demo_packed_no_tensor|].
  destruct (bidirectional_rejects_non_tensors Demo.bidir None [] demo_packed_no_tensor)
    as [H _].
  exact H.
Defined.

Lemma reset_clears_unidirectional_stack_witness :
  forallb is_uni (QRNN.layers Demo.stack) = true /\
  QRNN.reset Demo.stack [] =
    (QRNN.set_layers Demo.stack (map unit_cleared (QRNN.layers Demo.stack)), [], Ok tt).
Proof.
  split; [reflexivity|].
  destruct (reset_clears_unidirectional_stack Demo.stack [] eq_refl) as [H _].
  exact H.
Defined.

Lemma reset_stops_at_bidirectional_witness :
  forallb is_uni [QRNN.Uni (cache_after Demo.layer Demo.X0)] = true /\
  QRNN.reset
    (QRNN.set_layers Demo.stack
       [QRNN.Uni (cache_after Demo.layer Demo.X0); QRNN.Bi Demo.bidir;
        QRNN.Uni (cache_after Demo.layer Demo.X0)]) [] =
    (QRNN.set_layers Demo.stack
       [QRNN.Uni Demo.layer; QRNN.Bi Demo.bidir;
        QRNN.Uni (cache_after Demo.layer Demo.X0)], [], Raise AttributeError).
Proof.
  split; [reflexivity|].
  exact (reset_stops_at_bidirectional
           (QRNN.set_layers Demo.stack
              [QRNN.Uni (cache_after Demo.layer Demo.X0); QRNN.Bi Demo.bidir;
               QRNN.Uni (cache_after Demo.layer Demo.X0)])
           [QRNN.Uni (cache_after Demo.layer Demo.X0)]
           [QRNN.Uni (cache_after Demo.layer Demo.X0)] Demo.bidir [] eq_refl eq_refl).
Defined.

Lemma reset_undoes_forward_witness :
  forallb is_uni (QRNN.layers Demo.stack) = true /\
  exists q1 o1 r,
    QRNN.forward (PTensor (T3 Demo.X0)) None Demo.stack [] = (q1, o1, r) /\
    QRNN.reset q1 o1 =
      (QRNN.set_layers Demo.stack (map unit_cleared (QRNN.layers Demo.stack)), o1, Ok tt).
Proof.
  split; [reflexivity|].
  destruct (QRNN.forward (PTensor (T3 Demo.X0)) None Demo.stack [])
    as [[q1 o1] r] eqn:Hf.
  exists q1, o1, r; split; [reflexivity|].
  exact (reset_undoes_forward Demo.stack (PTensor (T3 Demo.X0)) None [] eq_refl Hf).
Defined.

Lemma empty_stack_forward_witness :
  QRNN.layers (QRNN.set_layers Demo.stack []) = [] /\
  QRNN.forward (PTensor (T3 Demo.X0)) None (QRNN.set_layers Demo.stack []) [] =
    (QRNN.set_layers Demo.stack [], [], Raise ValueError).
Proof.
  split; [reflexivity|].
  exact (empty_stack_forward (QRNN.set_layers Demo.stack []) (PTensor (T3 Demo.X0))
           None [] eq_refl).
Defined.






Lemma three_is_not_one : 3 <> 1.
Proof. discriminate. Qed.

Lemma window_validation_witness :
  (3 <> 1 /\ 3 <> 2) /\
  QRNNLayer.__init__ Demo.theta 2 (Some 3) true 0%Z 3 true false =
    Raise AssertionError /\
  BiDirQRNNLayer.__init__ Demo.theta Demo.theta 2 (Some 3) true 0%Z 3 true false =
    Raise AssertionError.
Proof.
  split; [exact (conj three_is_not_one three_is_not_two)|].
  exact (proj2 (window_validation Demo.theta Demo.theta 2 (Some 3) true 0%Z 3 true false)
           three_is_not_one three_is_not_two).
Defined.

Lemma stack_construction_errors_witness :
  (true = true \/ true = false) /\
  QRNN.__init__ (fun _ => (Demo.theta, Demo.theta)) 2 3 2 true true 0%Z false None
    Demo.kw = Raise AssertionError.
Proof.
  split; [left; reflexivity|].
  exact (proj1 (stack_construction_errors (fun _ => (Demo.theta, Demo.theta)) 2 3 2
                  true true 0%Z false None Demo.kw) (or_introl eq_refl)).
Defined.
